(** * journeyEmissions: the commute calculator of
    [src/PersonalCommute/PersonalCommuteCalc.jsx]

    A shallow embedding of the [PersonalCalculator] component: its state
    (the [useState] cells), its event handlers as functions from the
    state captured by the render they were created in to the list of
    effects they perform, the effect run on mount that decodes a shared
    link, the link encoder, and the order in which the [return]
    expression evaluates what can throw.

    Conventions of the model
    - A JavaScript number is an IEEE 754 binary64 value: a [spec_float]
      with [prec = 53] and [emax = 1024], under the correctly rounded
      arithmetic of [SpecFloat].
    - A JavaScript string is a [string], read as the bytes of its UTF-8
      form.  Case mapping is the one of the ASCII letters.
    - The services of the browser ([fetch], the clipboard, [history],
      [location], timers) are explicit: a handler is given the outcome of
      the call it awaits and returns the effects it performs, in order.
      A handler runs to its end; events that arrive while a call is
      pending are not interleaved with it.
    - A control can be used when the render that the state gives
      completes and includes it; a render that throws takes the
      component off the page.  For this the page is one that defines
      the two handlers which the component uses without declaring them.
    - [Number.parseInt], [Number.parseFloat], [Number.prototype.toString],
      [Math.ceil], [String.prototype.replace], [URLSearchParams] follow
      ECMAScript and the URL standard. *)

From Stdlib Require Import ZArith Bool List String Ascii Lia DecimalString.
From Stdlib Require Import Floats.SpecFloat.
Import ListNotations.

Local Open Scope Z_scope.

(** ** Numbers *)

Module Num.

Definition prec : Z := 53.
Definition emax : Z := 1024.

Definition number : Type := spec_float.

Definition NaN : number := S754_nan.
Definition mul : number -> number -> number := SFmul prec emax.
Definition div : number -> number -> number := SFdiv prec emax.

(** The number denoted by [m * 2^e], rounded to nearest even. *)
Definition of_Z2 (m e : Z) : number := binary_normalize prec emax m e false.

(** An integer literal. *)
Definition of_Z (n : Z) : number := of_Z2 n 0.

Definition valid (x : number) : bool := valid_binary prec emax x.

(** [Math.ceil]: NaN, the zeros and the infinities are returned as they
    are; a finite value with a non-negative exponent is an integer
    already; otherwise the mantissa is split at the binary point.  A
    value in (-1, 0) gives [-0]. *)
Definition Math_ceil (x : number) : number :=
  match x with
  | S754_finite s m e =>
      if 0 <=? e then x
      else
        let q := Z.shiftr (Zpos m) (- e) in
        let exact := Zpos m =? Z.shiftl q (- e) in
        if s then
          match q with
          | 0 => S754_zero true
          | _ => binary_normalize prec emax (- q) 0 true
          end
        else binary_normalize prec emax (if exact then q else q + 1) 0 false
  | _ => x
  end.

(** A shift record with nothing shifted out yet. *)
Definition exact (m : Z) : shr_record :=
  {| shr_m := m; shr_r := false; shr_s := false |}.

End Num.

Import Num.

(** ** Strings *)

Module Str.

Local Open Scope string_scope.
Local Open Scope Z_scope.

Definition code (c : ascii) : Z := Z.of_N (N_of_ascii c).
Definition chr (n : Z) : ascii := ascii_of_N (Z.to_N n).

Fixpoint of_codes (l : list Z) : string :=
  match l with
  | [] => ""
  | n :: l' => String (chr n) (of_codes l')
  end.

(** A string is truthy when it is not empty. *)
Definition truthy (s : string) : bool := negb (s =? "")%string.

Definition is_lower (c : ascii) : bool := (97 <=? code c) && (code c <=? 122).
Definition is_upper (c : ascii) : bool := (65 <=? code c) && (code c <=? 90).
Definition is_digit (c : ascii) : bool := (48 <=? code c) && (code c <=? 57).

Definition upper_char (c : ascii) : ascii :=
  if is_lower c then chr (code c - 32) else c.
Definition lower_char (c : ascii) : ascii :=
  if is_upper c then chr (code c + 32) else c.

Fixpoint map (f : ascii -> ascii) (s : string) : string :=
  match s with
  | "" => ""
  | String c s' => String (f c) (map f s')
  end.

(** [s.toUpperCase()] and [s.toLowerCase()] of a text of ASCII
    characters: the letters are mapped and every other byte is kept.
    The bytes of a character outside ASCII are kept too, where
    ECMAScript maps the character by the Unicode case tables: the two
    agree on the texts for which [ascii_text] holds. *)
Definition toUpperCase : string -> string := map upper_char.
Definition toLowerCase : string -> string := map lower_char.

Fixpoint drop (n : nat) (s : string) : string :=
  match n, s with
  | S n', String _ s' => drop n' s'
  | _, _ => s
  end.

(** A byte of an ASCII character. *)
Definition is_ascii (c : ascii) : bool := code c <? 128.

(** [s.replace(pattern, replacement)] with a string pattern and a
    replacement free of [$]: the first occurrence only is replaced. *)
Fixpoint replace (pattern replacement s : string) : string :=
  if prefix pattern s then replacement ++ drop (length pattern) s
  else match s with
       | "" => ""
       | String c s' => String c (replace pattern replacement s')
       end.

Fixpoint contains (c : ascii) (s : string) : bool :=
  match s with
  | "" => false
  | String c' s' => (c =? c')%char || contains c s'
  end.

Fixpoint count (c : ascii) (s : string) : nat :=
match s with
| "" => O
| String c' s' => if (c =? c')%char then S (count c s') else count c s'
end.

Fixpoint forallb (f : ascii -> bool) (s : string) : bool :=
  match s with
  | "" => true
  | String c s' => f c && forallb f s'
  end.

(** A text of ASCII characters only. *)
Definition ascii_text : string -> bool := forallb is_ascii.

(** White space and line terminators of ECMAScript, in UTF-8. *)
Definition white_space : list string :=
  List.map of_codes
    [ [9]; [10]; [11]; [12]; [13]; [32]; [194; 160]; [225; 154; 128];
      [226; 128; 128]; [226; 128; 129]; [226; 128; 130]; [226; 128; 131];
      [226; 128; 132]; [226; 128; 133]; [226; 128; 134]; [226; 128; 135];
      [226; 128; 136]; [226; 128; 137]; [226; 128; 138]; [226; 128; 168];
      [226; 128; 169]; [226; 128; 175]; [226; 129; 159]; [227; 128; 128];
      [239; 187; 191] ].

Fixpoint strip_any (ws : list string) (s : string) : option string :=
  match ws with
  | [] => None
  | w :: ws' => if prefix w s then Some (drop (length w) s) else strip_any ws' s
  end.

Fixpoint trim_start_aux (fuel : nat) (s : string) : string :=
  match fuel with
  | O => s
  | S fuel' =>
      match strip_any white_space s with
      | Some s' => trim_start_aux fuel' s'
      | None => s
      end
  end.

(** [TrimString(s, start)] *)
Definition trim_start (s : string) : string := trim_start_aux (length s) s.

(** The longest prefix of decimal digits, and what follows it. *)
Fixpoint span_digits (s : string) : string * string :=
  match s with
  | "" => ("", "")
  | String c s' =>
      if is_digit c
      then let (d, r) := span_digits s' in (String c d, r)
      else ("", s)
  end.

Fixpoint digits_value_aux (acc : Z) (s : string) : Z :=
  match s with
  | "" => acc
  | String c s' => digits_value_aux (10 * acc + (code c - 48)) s'
  end.

Definition digits_value : string -> Z := digits_value_aux 0.

(** An optional sign: whether it is a minus, and what follows it. *)
Definition take_sign (s : string) : bool * string :=
  match s with
  | String "-" r => (true, r)
  | String "+" r => (false, r)
  | _ => (false, s)
  end.

Fixpoint zeros (n : nat) : string :=
  match n with
  | O => ""
  | S n' => String "0" (zeros n')
  end.

Fixpoint join (sep : string) (l : list string) : string :=
  match l with
  | [] => ""
  | [x] => x
  | x :: l' => x ++ sep ++ join sep l'
  end.

End Str.

(** ** Numbers and strings *)

Module NumStr.

Import Str.
Local Open Scope string_scope.
Local Open Scope Z_scope.

(** The binary64 value nearest to [(-1)^neg * m * 10^e10]. *)
Definition of_decimal (neg : bool) (m e10 : Z) : number :=
  match m with
  | Zpos p =>
      if 0 <=? e10
      then binary_normalize prec emax
             ((if neg then Zneg p else Zpos p) * 10 ^ e10) 0 false
      else
        let '(q, e', l) :=
          SFdiv_core_binary prec emax (Zpos p) 0 (10 ^ (- e10)) 0 in
        binary_round_aux prec emax neg q e' l
  | _ => S754_zero neg
  end.

(** [Number.parseInt(string, 10)] *)
Definition parseInt10 (input : string) : number :=
  let (neg, S1) := take_sign (trim_start input) in
  let (Z_, _) := span_digits S1 in
  if (Z_ =? "")%string then NaN else of_decimal neg (digits_value Z_) 0.

(** The exponent part [e], [E] with an optional sign and digits; an
    incomplete exponent is not part of the literal. *)
Definition exponent_part (s : string) : Z :=
  match s with
  | String c r =>
      if ((c =? "e") || (c =? "E"))%char then
        let (eneg, r') := take_sign r in
        let (ed, _) := span_digits r' in
        if (ed =? "")%string then 0
        else if eneg then - digits_value ed else digits_value ed
      else 0
  | "" => 0
  end.

(** [Number.parseFloat(string)]: the longest prefix that is a
    [StrDecimalLiteral], correctly rounded. *)
Definition parseFloat (input : string) : number :=
  let (neg, S1) := take_sign (trim_start input) in
  if prefix "Infinity" S1 then S754_infinity neg
  else
    let (int_part, r1) := span_digits S1 in
    let (frac_part, r2) :=
      match r1 with
      | String "." r =>
          let (f, r') := span_digits r in
          if (int_part =? "")%string && (f =? "")%string then ("", r1) else (f, r')
      | _ => ("", r1)
      end in
    if (int_part =? "")%string && (frac_part =? "")%string then NaN
    else
      of_decimal neg (digits_value (int_part ++ frac_part))
        (exponent_part r2 - Z.of_nat (length frac_part)).

(** Decimal digits of a non-negative integer. *)
Definition decimal (n : Z) : string :=
  DecimalString.NilZero.string_of_uint (N.to_uint (Z.to_N n)).

(** A positive value as a fraction, and its scaling by a power of ten. *)
Definition fraction (m : positive) (e : Z) : Z * Z :=
  if 0 <=? e then (Zpos m * 2 ^ e, 1) else (Zpos m, 2 ^ (- e)).

Definition scale10 (x : Z * Z) (j : Z) : Z * Z :=
  let (a, b) := x in
  if 0 <=? j then (a * 10 ^ j, b) else (a, b * 10 ^ (- j)).

(** The least [n] from [n0] on with [x < 10^n]. *)
Fixpoint find_n (fuel : nat) (n : Z) (x : Z * Z) : Z :=
  match fuel with
  | O => n
  | S fuel' =>
      let (a, b) := scale10 x (- n) in
      if a <? b then n else find_n fuel' (n + 1) x
  end.

Definition same_finite (m : positive) (e : Z) (y : number) : bool :=
  match y with
  | S754_finite false m' e' => (m' =? m)%positive && (e' =? e)
  | _ => false
  end.

(** The candidates [(s, n)] with [k] digits that denote [m * 2^e]. *)
Definition candidates (m : positive) (e : Z) (n0 k : Z) : list (Z * Z) :=
  let x := fraction m e in
  List.filter
    (fun '(s, n) =>
       (10 ^ (k - 1) <=? s) && (s <? 10 ^ k)
       && same_finite m e (of_decimal false s (n - k)))
    (List.flat_map
       (fun n => let (a, b) := scale10 x (k - n) in
                 [(a / b, n); (a / b + 1, n)])
       [n0; n0 + 1]).

(** [|s * 10^(n-k) - x|] as a fraction. *)
Definition distance (x : Z * Z) (k : Z) (c : Z * Z) : Z * Z :=
  let (a, b) := x in
  let (s, n) := c in
  let (p, q) := scale10 (s, 1) (n - k) in
  (Z.abs (p * b - a * q), q * b).

Definition closer (x : Z * Z) (k : Z) (c1 c2 : Z * Z) : Z * Z :=
  let (a1, b1) := distance x k c1 in
  let (a2, b2) := distance x k c2 in
  if a2 * b1 <? a1 * b2 then c2 else c1.

Fixpoint shortest_from (fuel : nat) (m : positive) (e : Z) (n0 k : Z)
  : Z * Z * Z :=
  match candidates m e n0 k with
  | c :: cs =>
      let (s, n) := List.fold_left (closer (fraction m e) k) cs c in
      (s, k, n)
  | [] =>
      match fuel with
      | O => let (a, b) := scale10 (fraction m e) (k - n0) in (a / b, k, n0)
      | S fuel' => shortest_from fuel' m e n0 (k + 1)
      end
  end.

(** The [s], [k] and [n] of [Number::toString]: [k] is as small as
    possible with [s * 10^(n-k)] denoting the number. *)
Definition shortest (m : positive) (e : Z) : Z * Z * Z :=
  shortest_from 16 m e (find_n 640 (-324) (fraction m e)) 1.

Definition format_digits (s k n : Z) : string :=
  let d := decimal s in
  if (k <=? n) && (n <=? 21) then d ++ zeros (Z.to_nat (n - k))
  else if (0 <? n) && (n <=? 21) then
    substring 0 (Z.to_nat n) d ++ "."
    ++ substring (Z.to_nat n) (Z.to_nat (k - n)) d
  else if (-6 <? n) && (n <=? 0) then "0." ++ zeros (Z.to_nat (- n)) ++ d
  else
    let ex := (if n - 1 <? 0 then "-" else "+") ++ decimal (Z.abs (n - 1)) in
    if k =? 1 then d ++ "e" ++ ex
    else substring 0 1 d ++ "." ++ substring 1 (Z.to_nat (k - 1)) d
         ++ "e" ++ ex.

(** [Number.prototype.toString()] in radix 10. *)
Definition Number_toString (x : number) : string :=
  match x with
  | S754_nan => "NaN"
  | S754_zero _ => "0"
  | S754_infinity s => (if s then "-" else "") ++ "Infinity"
  | S754_finite s m e =>
      let '(d, k, n) := shortest m e in
      (if s then "-" else "") ++ format_digits d k n
  end.

End NumStr.

Import NumStr.

(** ** URLs and query strings *)

Module Url.

Import Str.
Local Open Scope string_scope.
Local Open Scope Z_scope.

(** Bytes that the [application/x-www-form-urlencoded] serializer
    leaves as they are. *)
Definition is_unreserved (c : ascii) : bool :=
  is_digit c || is_lower c || is_upper c
  || (c =? "*")%char || (c =? "-")%char || (c =? ".")%char || (c =? "_")%char.

Definition hex_digit (n : Z) : ascii :=
  if n <? 10 then chr (48 + n) else chr (55 + n).

Definition hex_value (c : ascii) : option Z :=
  if is_digit c then Some (code c - 48)
  else if (65 <=? code c) && (code c <=? 70) then Some (code c - 55)
  else if (97 <=? code c) && (code c <=? 102) then Some (code c - 87)
  else None.

Fixpoint urlencode (s : string) : string :=
  match s with
  | "" => ""
  | String c s' =>
      (if is_unreserved c then String c ""
       else if (c =? " ")%char then "+"
       else String "%" (String (hex_digit (code c / 16))
                          (String (hex_digit (code c mod 16)) "")))
      ++ urlencode s'
  end.

(** Percent-decoding: each [%XY] with two hexadecimal digits becomes the
    byte [XY].  The URL standard then reads the bytes as UTF-8 and puts
    U+FFFD for what is ill-formed; the model keeps the bytes, which is
    the same text whenever they are well-formed UTF-8, as the bytes of
    an ASCII text are. *)
Fixpoint percent_decode (s : string) : string :=
  match s with
  | "" => ""
  | String c s' =>
      if (c =? "%")%char then
        match s' with
        | String a (String b r) =>
            match hex_value a, hex_value b with
            | Some h, Some l => String (chr (16 * h + l)) (percent_decode r)
            | _, _ => String c (percent_decode s')
            end
        | _ => String c (percent_decode s')
        end
      else String c (percent_decode s')
  end.

Definition plus_to_space : string -> string :=
  map (fun c => if (c =? "+")%char then " "%char else c).

Fixpoint split (sep : ascii) (s : string) : list string :=
  match s with
  | "" => [""]
  | String c s' =>
      if (c =? sep)%char then "" :: split sep s'
      else match split sep s' with
           | x :: l => String c x :: l
           | [] => [String c ""]
           end
  end.

(** What is before the first [sep], and what is after it. *)
Fixpoint split_first (sep : ascii) (s : string) : string * string :=
  match s with
  | "" => ("", "")
  | String c s' =>
      if (c =? sep)%char then ("", s')
      else let (a, b) := split_first sep s' in (String c a, b)
  end.

(** The list of name-value pairs of a [URLSearchParams] object. *)
Definition URLSearchParams : Type := list (string * string).

(** [new URLSearchParams(init)] for a string: a leading [?] is dropped,
    the rest is split on [&], empty pieces are skipped, each piece is
    split on its first [=], and both halves are decoded. *)
Definition parse (init : string) : URLSearchParams :=
  let input := match init with String "?" r => r | _ => init end in
  List.map
    (fun piece =>
       let (name, value) := split_first "=" piece in
       (percent_decode (plus_to_space name),
        percent_decode (plus_to_space value)))
    (List.filter truthy (split "&" input)).

(** [params.get(name)]: the first value with that name, or [null]. *)
Fixpoint get (params : URLSearchParams) (name : string) : option string :=
  match params with
  | [] => None
  | (n, v) :: rest => if (n =? name)%string then Some v else get rest name
  end.

(** [params.append(name, value)] *)
Definition append (params : URLSearchParams) (name value : string)
  : URLSearchParams :=
  (params ++ [(name, value)])%list.

(** [params.toString()] *)
Definition toString (params : URLSearchParams) : string :=
  join "&" (List.map (fun '(n, v) => urlencode n ++ "=" ++ urlencode v) params).

(** [window.location], by its parts; [origin] and [pathname] contain
    neither [?] nor [#], [search] is empty or starts with [?], [hash]
    is empty or starts with [#]. *)
Record location : Type := {
  origin : string;
  pathname : string;
  search : string;
  hash : string
}.

Definition href (l : location) : string :=
  origin l ++ pathname l ++ search l ++ hash l.

(** [const url = new URL(window.location.href); url.search = "";
    url.toString()]: the address without its query. *)
Definition href_without_search (l : location) : string :=
  origin l ++ pathname l ++ hash l.

(** [window.history.pushState({}, "", path)]: the address becomes that
    path, without query or fragment.  A path that begins with [//] is
    not a path of the page's origin: it is read as [//host/...], the
    address of another host, and the call is refused with a
    [SecurityError], which [None] stands for.  (A page whose own path
    names its own host in this way is left out.) *)
Definition pushState (l : location) (path : string) : option location :=
  if prefix "//" path then None
  else Some {| origin := origin l; pathname := path; search := ""; hash := "" |}.

(** What follows the first [?] of a URL, when no [#] comes before it. *)
Fixpoint after_question (url : string) : option string :=
  match url with
  | "" => None
  | String c r =>
      if (c =? "#")%char then None
      else if (c =? "?")%char then Some r
      else after_question r
  end.

(** What comes before the first [#]. *)
Fixpoint until_hash (s : string) : string :=
  match s with
  | "" => ""
  | String c r => if (c =? "#")%char then "" else String c (until_hash r)
  end.

(** The query of a URL given as text, as a URL parser finds it: what is
    between the first [?] and the first [#], when the [?] comes first;
    the fragment starts at the first [#] and runs to the end. *)
Definition query_of (url : string) : string :=
  match after_question url with
  | Some r => until_hash r
  | None => ""
  end.

(** Neither [?] nor [#] occurs in the text. *)
Definition no_delimiter (s : string) : bool :=
  negb (contains "?" s) && negb (contains "#" s).

End Url.

(** ** The component *)

Module Calc.

Import Str.
Local Open Scope string_scope.
Local Open Scope Z_scope.

(** *** Values and exceptions *)

(** A thrown value: an [Error] instance with its [name] and [message],
    or anything else. *)
Inductive thrown : Type :=
| ErrorObject (name message : string)
| NotAnError.

Definition result (A : Type) : Type := (thrown + A)%type.

Definition bind {A B : Type} (r : result A) (k : A -> result B) : result B :=
  match r with
  | inl e => inl e
  | inr a => k a
  end.

Notation "x <- r ;; k" := (bind r (fun x => k))
  (at level 61, r at next level, right associativity).
Notation "r ;;; k" := (bind r (fun _ => k))
  (at level 61, right associativity).

(** What [carbonEmissions] and the [emissions_kgCO2e] field of a
    response can hold: [null], [undefined] (the field is absent), a
    number, or a JSON value of another kind (a boolean, a string, an
    array, an object).  Such a value is given by what the conversions
    applied to it return: [ToNumber], which throws for an object whose
    [valueOf] and [toString] are not callable, and a call of its
    [toString] method. *)
Inductive value : Type :=
| VNull
| VUndefined
| VNum (x : number)
| VOther (to_number : result number) (to_string : result string).

(** [ToNumber], as applied by [emissions * 2]. *)
Definition ToNumber (v : value) : result number :=
  match v with
  | VNull => inr (of_Z 0)
  | VUndefined => inr NaN
  | VNum x => inr x
  | VOther to_number _ => to_number
  end.

(** *** State *)

Record state : Type := {
  homePostcode : string;
  workPostcode : string;
  travelMethod : string;
  carbonEmissions : value;
  treesNeeded : number;
  isLoading : bool;
  error : option string;
  shareTooltip : string;
  isSharedView : bool;
  showTooltip : bool;
  email : string;
  isSubmitting : bool;
  submitStatus : string;
  errorMessage : string
}.

(** The arguments of the [useState] calls. *)
Definition initial_state : state := {|
  homePostcode := "";
  workPostcode := "";
  travelMethod := "";
  carbonEmissions := VNull;
  treesNeeded := of_Z 0;
  isLoading := false;
  error := None;
  shareTooltip := "Copy link";
  isSharedView := false;
  showTooltip := false;
  email := "";
  isSubmitting := false;
  submitStatus := "idle";
  errorMessage := ""
|}.

(** *** The remote call *)

(** The body of the request, before [JSON.stringify]. *)
Record request_body : Type := {
  body_origin : string;
  body_destination : string;
  body_mode : string
}.

Record request : Type := {
  req_method : string;
  req_headers : list (string * string);
  req_body : request_body
}.

(** The parsed response: [null], or a value whose [emissions_kgCO2e]
    property reads as the given value. *)
Inductive payload : Type :=
| PayloadNull
| PayloadWith (emissions_kgCO2e : value).

Inductive json_outcome : Type :=
| JsonRejected (err : thrown)
| JsonData (data : payload).

(** How [await fetch(...)] and then [await response.json()] end. *)
Inductive fetch_outcome : Type :=
| FetchRejected (err : thrown)
| FetchResponse (ok : bool) (body : json_outcome).

(** *** Effects *)

#[warnings="-register-all"]
Inductive effect : Type :=
| SetHomePostcode (s : string)
| SetWorkPostcode (s : string)
| SetTravelMethod (s : string)
| SetCarbonEmissions (v : value)
| SetTreesNeeded (n : number)
| SetIsLoading (b : bool)
| SetError (e : option string)
| SetShareTooltip (s : string)
| SetIsSharedView (b : bool)
| SetShowTooltip (b : bool)
| Fetch (url : string) (r : request)
| ConsoleLog (data : payload)
| ConsoleError (label : string) (err : thrown)
| ClipboardWrite (text : string)
| PushState (url : string)
| SetTimeout (callback : list effect) (ms : Z).

Definition set_state (s : state) (e : effect) : state :=
  match e with
  | SetHomePostcode v =>
      {| homePostcode := v; workPostcode := workPostcode s;
         travelMethod := travelMethod s; carbonEmissions := carbonEmissions s;
         treesNeeded := treesNeeded s; isLoading := isLoading s;
         error := error s; shareTooltip := shareTooltip s;
         isSharedView := isSharedView s; showTooltip := showTooltip s;
         email := email s; isSubmitting := isSubmitting s;
         submitStatus := submitStatus s; errorMessage := errorMessage s |}
  | SetWorkPostcode v =>
      {| homePostcode := homePostcode s; workPostcode := v;
         travelMethod := travelMethod s; carbonEmissions := carbonEmissions s;
         treesNeeded := treesNeeded s; isLoading := isLoading s;
         error := error s; shareTooltip := shareTooltip s;
         isSharedView := isSharedView s; showTooltip := showTooltip s;
         email := email s; isSubmitting := isSubmitting s;
         submitStatus := submitStatus s; errorMessage := errorMessage s |}
  | SetTravelMethod v =>
      {| homePostcode := homePostcode s; workPostcode := workPostcode s;
         travelMethod := v; carbonEmissions := carbonEmissions s;
         treesNeeded := treesNeeded s; isLoading := isLoading s;
         error := error s; shareTooltip := shareTooltip s;
         isSharedView := isSharedView s; showTooltip := showTooltip s;
         email := email s; isSubmitting := isSubmitting s;
         submitStatus := submitStatus s; errorMessage := errorMessage s |}
  | SetCarbonEmissions v =>
      {| homePostcode := homePostcode s; workPostcode := workPostcode s;
         travelMethod := travelMethod s; carbonEmissions := v;
         treesNeeded := treesNeeded s; isLoading := isLoading s;
         error := error s; shareTooltip := shareTooltip s;
         isSharedView := isSharedView s; showTooltip := showTooltip s;
         email := email s; isSubmitting := isSubmitting s;
         submitStatus := submitStatus s; errorMessage := errorMessage s |}
  | SetTreesNeeded v =>
      {| homePostcode := homePostcode s; workPostcode := workPostcode s;
         travelMethod := travelMethod s; carbonEmissions := carbonEmissions s;
         treesNeeded := v; isLoading := isLoading s;
         error := error s; shareTooltip := shareTooltip s;
         isSharedView := isSharedView s; showTooltip := showTooltip s;
         email := email s; isSubmitting := isSubmitting s;
         submitStatus := submitStatus s; errorMessage := errorMessage s |}
  | SetIsLoading v =>
      {| homePostcode := homePostcode s; workPostcode := workPostcode s;
         travelMethod := travelMethod s; carbonEmissions := carbonEmissions s;
         treesNeeded := treesNeeded s; isLoading := v;
         error := error s; shareTooltip := shareTooltip s;
         isSharedView := isSharedView s; showTooltip := showTooltip s;
         email := email s; isSubmitting := isSubmitting s;
         submitStatus := submitStatus s; errorMessage := errorMessage s |}
  | SetError v =>
      {| homePostcode := homePostcode s; workPostcode := workPostcode s;
         travelMethod := travelMethod s; carbonEmissions := carbonEmissions s;
         treesNeeded := treesNeeded s; isLoading := isLoading s;
         error := v; shareTooltip := shareTooltip s;
         isSharedView := isSharedView s; showTooltip := showTooltip s;
         email := email s; isSubmitting := isSubmitting s;
         submitStatus := submitStatus s; errorMessage := errorMessage s |}
  | SetShareTooltip v =>
      {| homePostcode := homePostcode s; workPostcode := workPostcode s;
         travelMethod := travelMethod s; carbonEmissions := carbonEmissions s;
         treesNeeded := treesNeeded s; isLoading := isLoading s;
         error := error s; shareTooltip := v;
         isSharedView := isSharedView s; showTooltip := showTooltip s;
         email := email s; isSubmitting := isSubmitting s;
         submitStatus := submitStatus s; errorMessage := errorMessage s |}
  | SetIsSharedView v =>
      {| homePostcode := homePostcode s; workPostcode := workPostcode s;
         travelMethod := travelMethod s; carbonEmissions := carbonEmissions s;
         treesNeeded := treesNeeded s; isLoading := isLoading s;
         error := error s; shareTooltip := shareTooltip s;
         isSharedView := v; showTooltip := showTooltip s;
         email := email s; isSubmitting := isSubmitting s;
         submitStatus := submitStatus s; errorMessage := errorMessage s |}
  | SetShowTooltip v =>
      {| homePostcode := homePostcode s; workPostcode := workPostcode s;
         travelMethod := travelMethod s; carbonEmissions := carbonEmissions s;
         treesNeeded := treesNeeded s; isLoading := isLoading s;
         error := error s; shareTooltip := shareTooltip s;
         isSharedView := isSharedView s; showTooltip := v;
         email := email s; isSubmitting := isSubmitting s;
         submitStatus := submitStatus s; errorMessage := errorMessage s |}
  | _ => s
  end.

(** The component with the page it lives in: its state, the address
    bar, and the callbacks of the timers that have not fired yet. *)
Record world : Type := {
  st : state;
  loc : Url.location;
  timers : list (list effect)
}.

Definition perform (w : world) (e : effect) : world :=
  match e with
  | PushState url =>
      match Url.pushState (loc w) url with
      | Some l => {| st := st w; loc := l; timers := timers w |}
      | None => w
      end
  | SetTimeout callback _ =>
      {| st := st w; loc := loc w; timers := (timers w ++ [callback])%list |}
  | _ => {| st := set_state (st w) e; loc := loc w; timers := timers w |}
  end.

Definition perform_all (w : world) (es : list effect) : world :=
  List.fold_left perform es w.

(** The state after a handler's effects. *)
Definition after (s : state) (es : list effect) : state :=
  List.fold_left set_state es s.

(** *** The shared-link effect run on mount *)

(** [Check for URL parameters on load to handle shared views] *)
Definition mount_effect (l : Url.location) : list effect :=
  let urlParams := Url.parse (Url.search l) in
  let trees := Url.get urlParams "trees" in
  let emissions := Url.get urlParams "emissions" in
  let method := Url.get urlParams "method" in
  match trees, emissions with
  | Some trees, Some emissions =>
      if truthy trees && truthy emissions then
        [ SetTreesNeeded (parseInt10 trees);
          SetCarbonEmissions (VNum (parseFloat emissions));
          SetIsSharedView true ]
        ++ match method with
           | Some method => if truthy method then [SetTravelMethod method] else []
           | None => []
           end
      else []
  | _, _ => []
  end%list.

(** *** The trees-needed formula *)

(** [const KG_CO2_PER_TREE_PER_YEAR = 25] *)
Definition KG_CO2_PER_TREE_PER_YEAR : number := of_Z 25.

Definition calculateTreesNeeded (emissions : value) : result number :=
  e <- ToNumber emissions ;;
  let annualEmissions := mul (mul e (of_Z 2)) (of_Z 230) in
  inr (Math_ceil (div annualEmissions KG_CO2_PER_TREE_PER_YEAR)).

(** *** The submit handler *)

Definition endpoint : string :=
  "https://carbonfreecommutes-backend.onrender.com/single-journey".

Definition visualize_request (s : state) : request := {|
  req_method := "POST";
  req_headers := [("Content-Type", "application/json")];
  req_body := {|
    body_origin := toUpperCase (replace " " "" (homePostcode s));
    body_destination := toUpperCase (replace " " "" (workPostcode s));
    body_mode := toLowerCase (travelMethod s)
  |}
|}.

(** [err instanceof Error ? err.message : "An error occurred"] *)
Definition catch_message (err : thrown) : string :=
  match err with
  | ErrorObject _ message => message
  | NotAnError => "An error occurred"
  end.

(** [data.emissions_kgCO2e]; reading a property of [null] throws. *)
Definition read_emissions (data : payload) : result value :=
  match data with
  | PayloadNull =>
      inl (ErrorObject "TypeError"
             "Cannot read properties of null (reading 'emissions_kgCO2e')")
  | PayloadWith v => inr v
  end.

(** The [try] block after the request was sent: the effects performed
    before it ends, and the exception it ends with, if any. *)
Definition visualize_try (o : fetch_outcome) : list effect * option thrown :=
  match o with
  | FetchRejected err => ([], Some err)
  | FetchResponse false _ =>
      ([], Some (ErrorObject "Error" "Failed to calculate carbon emissions"))
  | FetchResponse true (JsonRejected err) => ([], Some err)
  | FetchResponse true (JsonData data) =>
      match read_emissions data with
      | inl err => ([ConsoleLog data], Some err)
      | inr emissions =>
          match calculateTreesNeeded emissions with
          | inl err => ([ConsoleLog data; SetCarbonEmissions emissions], Some err)
          | inr trees =>
              ([ ConsoleLog data;
                 SetCarbonEmissions emissions;
                 SetTreesNeeded trees ], None)
          end
      end
  end.

(** [handleVisualize], run from the state [s] of the render it was
    created in, with the outcome [o] of the call it awaits. *)
Definition handleVisualize (s : state) (o : fetch_outcome) : list effect :=
  if negb (truthy (homePostcode s)) || negb (truthy (workPostcode s))
     || negb (truthy (travelMethod s))
  then [SetError (Some "Please fill in all fields")]
  else
    ([SetIsLoading true; SetError None; Fetch endpoint (visualize_request s)]
     ++ (let (done, exn) := visualize_try o in
         done ++ match exn with
                 | Some err => [SetError (Some (catch_message err))]
                 | None => []
                 end)
     ++ [SetIsLoading false])%list.

(** *** Sharing *)

(** [carbonEmissions.toString()] *)
Definition value_toString (v : value) : result string :=
  match v with
  | VNum x => inr (Number_toString x)
  | VNull =>
      inl (ErrorObject "TypeError"
             "Cannot read properties of null (reading 'toString')")
  | VUndefined =>
      inl (ErrorObject "TypeError"
             "Cannot read properties of undefined (reading 'toString')")
  | VOther _ to_string => to_string
  end.

(** The [URLSearchParams] that [generateShareableLink] builds. *)
Definition share_params (s : state) : result Url.URLSearchParams :=
  let params := [] in
  let params := Url.append params "trees" (Number_toString (treesNeeded s)) in
  emissions <- value_toString (carbonEmissions s) ;;
  let params := Url.append params "emissions" emissions in
  let params :=
    if truthy (travelMethod s)
    then Url.append params "method" (travelMethod s) else params in
  inr params.

Definition generateShareableLink (s : state) (l : Url.location)
  : result string :=
  match carbonEmissions s with
  | VNull => inr ""
  | _ =>
      let url := Url.href_without_search l in
      params <- share_params s ;;
      inr (url ++ "?" ++ Url.toString params)
  end.

(** [handleShare], with the outcome of the clipboard write it awaits.
    An exception of [generateShareableLink] is raised before the [try]
    block, so it ends the handler. *)
Definition handleShare (s : state) (l : Url.location) (clip : option thrown)
  : list effect :=
  match generateShareableLink s l with
  | inl _ => []
  | inr shareableLink =>
      ClipboardWrite shareableLink ::
      match clip with
      | None =>
          [ SetShareTooltip "Copied!";
            SetShowTooltip true;
            SetTimeout [SetShareTooltip "Copy link"; SetShowTooltip false] 2000 ]
      | Some err => [ConsoleError "Failed to copy link: " err]
      end
  end.

(** *** Leaving the shared view *)

(** The [onClick] of the button [Calculate your own commute].  When
    [pushState] throws, the handler ends there and [setIsSharedView] is
    not called. *)
Definition handleReset (l : Url.location) : list effect :=
  match Url.pushState l (Url.pathname l) with
  | Some _ => [PushState (Url.pathname l); SetIsSharedView false]
  | None => [PushState (Url.pathname l)]
  end.

(** *** Rendering *)

(** The names bound in the module and in the component body: the
    imports, the module constant, the props, the state cells with their
    setters, and the functions declared before the [return]. *)
Definition declared : list string :=
  [ "useState"; "useEffect"; "Tree"; "Share2"; "KG_CO2_PER_TREE_PER_YEAR";
    "PersonalCalculator"; "title"; "description";
    "homePostcode"; "setHomePostcode"; "workPostcode"; "setWorkPostcode";
    "travelMethod"; "setTravelMethod"; "carbonEmissions"; "setCarbonEmissions";
    "treesNeeded"; "setTreesNeeded"; "isLoading"; "setIsLoading";
    "error"; "setError"; "shareTooltip"; "setShareTooltip";
    "isSharedView"; "setIsSharedView"; "showTooltip"; "setShowTooltip";
    "email"; "setEmail"; "isSubmitting"; "setIsSubmitting";
    "submitStatus"; "setSubmitStatus"; "errorMessage"; "setErrorMessage";
    "calculateTreesNeeded"; "handleVisualize"; "generateShareableLink";
    "handleShare" ].

(** The names of the global object that the component uses. *)
Definition browser_globals : list string :=
  [ "window"; "URLSearchParams"; "URL"; "Number"; "Math"; "Array"; "JSON";
    "Error"; "fetch"; "console"; "navigator"; "setTimeout" ].

(** Evaluating an identifier: a name bound neither in the module nor in
    the global object raises a [ReferenceError].  [globals] lists what
    the page has added to the global object. *)
Definition resolve (globals : list string) (name : string) : result unit :=
  if List.existsb (String.eqb name) (declared ++ browser_globals ++ globals)
  then inr tt
  else inl (ErrorObject "ReferenceError" (name ++ " is not defined")).

Fixpoint resolve_all (globals : list string) (names : list string)
  : result unit :=
  match names with
  | [] => inr tt
  | name :: rest => resolve globals name ;;; resolve_all globals rest
  end.

(** [carbonEmissions.toFixed(2)] *)
Definition call_toFixed (v : value) : result unit :=
  match v with
  | VNum _ => inr tt
  | VNull =>
      inl (ErrorObject "TypeError"
             "Cannot read properties of null (reading 'toFixed')")
  | VUndefined =>
      inl (ErrorObject "TypeError"
             "Cannot read properties of undefined (reading 'toFixed')")
  | VOther _ _ =>
      inl (ErrorObject "TypeError" "carbonEmissions.toFixed is not a function")
  end.

(** What a render that completes puts on the page. *)
Record view : Type := {
  shows_form : bool;
  shows_error : bool;
  shows_result : bool;
  shows_share : bool;
  shows_reset : bool;
  shows_cta : bool
}.

Definition present (v : value) : bool :=
  match v with
  | VNull => false
  | _ => true
  end.

(** The [return] expression, in evaluation order: the header, the
    form, the tree visualisation, the reset button, the lead-capture
    form.  Names inside arrow functions are not evaluated by the
    render. *)
Definition render (globals : list string) (s : state) : result view :=
  (* header *)
  resolve_all globals
    (if isSharedView s then ["isSharedView"; "isSharedView"]
     else ["isSharedView"; "title"; "isSharedView"; "description"]) ;;;
  (* input form *)
  resolve globals "isSharedView" ;;;
  (if negb (isSharedView s) then
     resolve_all globals
       ["homePostcode"; "workPostcode"; "travelMethod"; "handleVisualize";
        "isLoading"; "isLoading"; "error"]
   else inr tt) ;;;
  (* tree visualisation *)
  resolve globals "carbonEmissions" ;;;
  (if present (carbonEmissions s) then
     resolve_all globals ["treesNeeded"; "isSharedView"; "isSharedView";
                          "carbonEmissions"] ;;;
     call_toFixed (carbonEmissions s) ;;;
     resolve_all globals ["Array"; "Math"; "treesNeeded"; "treesNeeded";
                          "isSharedView"] ;;;
     (if negb (isSharedView s) then
        resolve_all globals ["handleShare"; "Share2"; "showTooltip"]
      else inr tt)
   else inr tt) ;;;
  (* reset button *)
  resolve globals "isSharedView" ;;;
  (* lead-capture form *)
  resolve globals "carbonEmissions" ;;;
  (if present (carbonEmissions s) then
     resolve_all globals
       ["handleRequestInfo"; "email"; "handleEmailChange"; "isSubmitting";
        "submitStatus"; "submitStatus"; "isSubmitting"; "isSubmitting"]
   else inr tt) ;;;
  inr {| shows_form := negb (isSharedView s);
         shows_error := negb (isSharedView s)
                        && match error s with
                           | Some msg => truthy msg
                           | None => false
                           end;
         shows_result := present (carbonEmissions s);
         shows_share := present (carbonEmissions s) && negb (isSharedView s);
         shows_reset := isSharedView s;
         shows_cta := present (carbonEmissions s) |}.

(** *** Events *)

(** The options of the travel-method [select] that can be chosen. *)
Inductive travel_option : Type :=
| car_diesel | car_hybrid | car_petrol | car_pluginhybrid
| taxi | taxi_blackcab | Train | Train_underground | Bike | Walk.

Definition option_value (o : travel_option) : string :=
  match o with
  | car_diesel => "car_diesel"
  | car_hybrid => "car_hybrid"
  | car_petrol => "car_petrol"
  | car_pluginhybrid => "car_pluginhybrid"
  | taxi => "taxi"
  | taxi_blackcab => "taxi_blackcab"
  | Train => "Train"
  | Train_underground => "Train_underground"
  | Bike => "Bike"
  | Walk => "Walk"
  end.

Inductive event : Type :=
| ChangeHome (text : string)
| ChangeWork (text : string)
| ChangeMethod (o : travel_option)
| ClickVisualize (o : fetch_outcome)
| ClickShare (clip : option thrown)
| ClickReset
| TimerFires.

(** The two names that the [return] expression evaluates and the module
    does not bind.  A page in which the component shows an estimate has
    them in its global object. *)
Definition undeclared_handlers : list string :=
  ["handleRequestInfo"; "handleEmailChange"].

(** Whether the component is on the page: a render that throws leaves
    nothing of it there. *)
Definition mounted (s : state) : bool :=
  match render undeclared_handlers s with
  | inr _ => true
  | inl _ => false
  end.

(** Whether the control of an event is on the page: the render
    completes and its [return] expression includes the control.  The
    [Visualize] button is disabled while a call is pending.  A timer
    needs no control. *)
Definition enabled (s : state) (ev : event) : bool :=
  match ev with
  | TimerFires => true
  | _ =>
      match render undeclared_handlers s with
      | inl _ => false
      | inr v =>
          match ev with
          | ChangeHome _ | ChangeWork _ | ChangeMethod _ => shows_form v
          | ClickVisualize _ => shows_form v && negb (isLoading s)
          | ClickShare _ => shows_share v
          | ClickReset => shows_reset v
          | TimerFires => true
          end
      end
  end.

(** The effects of an event.  The setters called by a timer that fires
    after the component has left the page do nothing. *)
Definition handle (w : world) (ev : event) : list effect :=
  match ev with
  | ChangeHome text => [SetHomePostcode text]
  | ChangeWork text => [SetWorkPostcode text]
  | ChangeMethod o => [SetTravelMethod (option_value o)]
  | ClickVisualize o => handleVisualize (st w) o
  | ClickShare clip => handleShare (st w) (loc w) clip
  | ClickReset => handleReset (loc w)
  | TimerFires =>
      match timers w with
      | callback :: _ => if mounted (st w) then callback else []
      | [] => []
      end
  end.

Definition step (w : world) (ev : event) : world :=
  if enabled (st w) ev then
    let w' := match ev with
              | TimerFires =>
                  {| st := st w; loc := loc w; timers := List.tl (timers w) |}
              | _ => w
              end in
    perform_all w' (handle w ev)
  else w.

(** The component once mounted in a page at address [l]. *)
Definition load (l : Url.location) : world :=
  perform_all {| st := initial_state; loc := l; timers := [] |}
    (mount_effect l).

Definition run (l : Url.location) (evs : list event) : world :=
  List.fold_left step evs (load l).

(** *** Vocabulary of the statements *)

Definition is_fetch (e : effect) : bool :=
  match e with
  | Fetch _ _ => true
  | _ => false
  end.

Definition enters_loading (e : effect) : bool :=
  match e with
  | SetIsLoading true => true
  | _ => false
  end.

(** The exception that ends the [try] block, if any. *)
Definition failure (o : fetch_outcome) : option thrown :=
  snd (visualize_try o).

(** All three inputs are filled in. *)
Definition filled (s : state) : bool :=
  truthy (homePostcode s) && truthy (workPostcode s)
  && truthy (travelMethod s).

(** The state [s] with other postcodes. *)
Definition with_postcodes (s : state) (home work : string) : state :=
  set_state (set_state s (SetHomePostcode home)) (SetWorkPostcode work).

(** The callback of the timer that [handleShare] sets. *)
Definition tooltip_reset : list effect :=
  [SetShareTooltip "Copy link"; SetShowTooltip false].

(** The pending timers are those of [handleShare]. *)
Definition tooltip_timers (w : world) : Prop :=
  Forall (eq tooltip_reset) (timers w).

(** The stored trees count is what the formula gives for the stored
    estimate, whenever it gives a number. *)
Definition formula_holds (s : state) : Prop :=
  forall n, calculateTreesNeeded (carbonEmissions s) = inr n ->
            treesNeeded s = n.

(** The call fails before a payload is used: the request is rejected,
    the response is not 2xx, its body is not JSON, or the payload is
    [null]. *)
Definition fails_early (o : fetch_outcome) : bool :=
  match o with
  | FetchRejected _ => true
  | FetchResponse false _ => true
  | FetchResponse true (JsonRejected _) => true
  | FetchResponse true (JsonData PayloadNull) => true
  | FetchResponse true (JsonData (PayloadWith _)) => false
  end.

(** The form filled in, before any submission. *)
Definition filled_in : state :=
  after initial_state
    [SetHomePostcode "SW1A 1AA"; SetWorkPostcode "EC2A 1NT";
     SetTravelMethod "Bike"].

(** The page at [https://example.org/commute] with a query string. *)
Definition page (query : string) : Url.location :=
  {| Url.origin := "https://example.org"; Url.pathname := "/commute";
     Url.search := query; Url.hash := "" |}.

End Calc.

Import Calc.

(** ** Vocabulary of the further properties *)

(** The requests among the effects of a handler. *)
Definition requests (es : list effect) : list effect :=
  List.filter is_fetch es.

(** The sign bit of a number; [NaN] has none. *)
Definition negative (x : number) : bool :=
  match x with
  | S754_zero s => s
  | S754_infinity s => s
  | S754_nan => false
  | S754_finite s _ _ => s
  end.

(** A number without a fractional part: a finite value is a multiple of
    one.  The zeros, the infinities and [NaN] have no fractional part
    either. *)
Definition whole (x : number) : bool :=
  match x with
  | S754_finite _ m e => (0 <=? e) || (Zpos m mod 2 ^ (- e) =? 0)
  | _ => true
  end.

(** The address of the page [l] opened with the query [query] and no
    fragment. *)
Definition opened (l : Url.location) (query : string) : Url.location :=
  {| Url.origin := Url.origin l; Url.pathname := Url.pathname l;
     Url.search := String "?" query; Url.hash := "" |}.

(** The address [l] with a fragment. *)
Definition with_fragment (l : Url.location) (fragment : string)
  : Url.location :=
  {| Url.origin := Url.origin l; Url.pathname := Url.pathname l;
     Url.search := Url.search l; Url.hash := String "#" fragment |}.

(** The state [s] with the tooltip at rest. *)
Definition tooltip_at_rest (s : state) : state :=
  after s tooltip_reset.

(** What a render without an estimate puts on the page. *)
Definition input_view (s : state) : view :=
  {| shows_form := negb (isSharedView s);
     shows_error := negb (isSharedView s)
                    && match error s with
                       | Some msg => Str.truthy msg
                       | None => false
                       end;
     shows_result := false;
     shows_share := false;
     shows_reset := isSharedView s;
     shows_cta := false |}.

(** One serialized name-value pair of a query string. *)
Definition piece (p : string * string) : string :=
  (Url.urlencode (fst p) ++ String "=" (Url.urlencode (snd p)))%string.
(** ** Facts about binary64 rounding *)

Section Rounding.

Lemma iter_pos_nat {A : Type} (f : A -> A) (p : positive) (x : A) :
  iter_pos f p x = Nat.iter (Pos.to_nat p) f x.
Proof.
  revert x; induction p as [p IH | p IH |]; intros x; cbn [iter_pos].
  - rewrite !IH, Pos2Nat.inj_xI.
    replace (S (2 * Pos.to_nat p))%nat
      with (Pos.to_nat p + S (Pos.to_nat p))%nat by lia.
    rewrite Nat.iter_add, Nat.iter_succ_r. reflexivity.
  - rewrite !IH, Pos2Nat.inj_xO.
    replace (2 * Pos.to_nat p)%nat
      with (Pos.to_nat p + Pos.to_nat p)%nat by lia.
    rewrite Nat.iter_add. reflexivity.
  - reflexivity.
Qed.

Lemma shr_1_shiftl (m : positive) (k : nat) :
  Nat.iter k shr_1 (exact (Zpos (Pos.shiftl_nat m k))) = exact (Zpos m).
Proof.
  induction k as [| k IH]; [reflexivity |].
  rewrite Nat.iter_succ_r. exact IH.
Qed.

Lemma digits_shiftl (m : positive) (k : nat) :
  Zpos (digits2_pos (Pos.shiftl_nat m k))
  = Zpos (digits2_pos m) + Z.of_nat k.
Proof.
  induction k as [| k IH]; [cbn; lia |].
  change (Pos.shiftl_nat m (S k)) with (xO (Pos.shiftl_nat m k)).
  cbn [digits2_pos]. rewrite Pos2Z.inj_succ, IH. lia.
Qed.

Lemma shr_nat (r : shr_record) (e : Z) (k : nat) :
  shr r e (Z.of_nat k) = (Nat.iter k shr_1 r, e + Z.of_nat k).
Proof.
  destruct k as [| k].
  - cbn. f_equal. lia.
  - cbn [Z.of_nat shr].
    rewrite iter_pos_nat, SuccNat2Pos.id_succ. reflexivity.
Qed.

(** Rounding an exact multiple of a power of two whose quotient is
    canonical at the shifted exponent. *)
Lemma round_shiftl (s : bool) (m : positive) (k : nat) (e : Z) :
  fexp prec emax (Zpos (digits2_pos m) + (e + Z.of_nat k)) = e + Z.of_nat k ->
  binary_round_aux prec emax s (Zpos (Pos.shiftl_nat m k)) e loc_Exact
  = if e + Z.of_nat k <=? emax - prec
    then S754_finite s m (e + Z.of_nat k) else S754_infinity s.
Proof.
  intros H. unfold binary_round_aux, shr_fexp.
  cbn [Zdigits2 shr_record_of_loc]. rewrite digits_shiftl.
  replace (Zpos (digits2_pos m) + Z.of_nat k + e)
    with (Zpos (digits2_pos m) + (e + Z.of_nat k)) by lia.
  rewrite H. replace (e + Z.of_nat k - e) with (Z.of_nat k) by lia.
  rewrite shr_nat. fold (exact (Zpos (Pos.shiftl_nat m k))).
  rewrite shr_1_shiftl.
  cbn [exact shr_m loc_of_shr_record round_nearest_even Zdigits2
       shr_record_of_loc].
  rewrite H, Z.sub_diag. cbn [shr shr_m]. reflexivity.
Qed.

(** Doubling the integer and lowering the exponent by one does not
    change the rounded result, as long as rounding does not have to
    shift left. *)
Lemma round_double (s : bool) (P : positive) (E : Z) :
  E <= fexp prec emax (Zpos (digits2_pos P) + E) ->
  binary_round_aux prec emax s (Zpos (xO P)) (E - 1) loc_Exact
  = binary_round_aux prec emax s (Zpos P) E loc_Exact.
Proof.
  intros H. unfold binary_round_aux.
  assert (shr_fexp prec emax (Zpos (xO P)) (E - 1) loc_Exact
          = shr_fexp prec emax (Zpos P) E loc_Exact) as ->; [| reflexivity].
  unfold shr_fexp. cbn [Zdigits2 digits2_pos shr_record_of_loc].
  rewrite Pos2Z.inj_succ.
  replace (Z.succ (Zpos (digits2_pos P)) + (E - 1))
    with (Zpos (digits2_pos P) + E) by lia.
  set (F := fexp prec emax (Zpos (digits2_pos P) + E)) in *.
  replace (F - (E - 1)) with (Z.of_nat (S (Z.to_nat (F - E)))) by lia.
  replace (F - E) with (Z.of_nat (Z.to_nat (F - E))) at 2 by lia.
  rewrite !shr_nat, Nat.iter_succ_r. f_equal. lia.
Qed.

Lemma shr_1_div (r : shr_record) :
  0 <= shr_m r -> shr_m (shr_1 r) = shr_m r / 2.
Proof.
  destruct r as [m b c]; cbn [shr_m]; intros Hm.
  destruct m as [| p | p]; [reflexivity | | lia].
  destruct p as [p | p |]; cbn [shr_1 shr_m]; [| | reflexivity].
  - rewrite (Pos2Z.inj_xI p). apply Z.div_unique with 1; lia.
  - rewrite (Pos2Z.inj_xO p). apply Z.div_unique with 0; lia.
Qed.

Lemma shr_iter_div (k : nat) (r : shr_record) :
  0 <= shr_m r ->
  shr_m (Nat.iter k shr_1 r) = shr_m r / 2 ^ Z.of_nat k.
Proof.
  intros Hm. induction k as [| k IH].
  - cbn. now rewrite Z.div_1_r.
  - rewrite Nat.iter_succ, shr_1_div, IH.
    + rewrite Nat2Z.inj_succ, Z.pow_succ_r by lia.
      rewrite Z.div_div by lia. f_equal. lia.
    + rewrite IH. apply Z.div_pos; lia.
Qed.

Lemma digits_bounds (p : positive) :
  2 ^ (Zpos (digits2_pos p) - 1) <= Zpos p < 2 ^ Zpos (digits2_pos p).
Proof.
  induction p as [p IH | p IH |]; cbn [digits2_pos];
    [rewrite (Pos2Z.inj_xI p) | rewrite (Pos2Z.inj_xO p) | cbn; lia];
    rewrite Pos2Z.inj_succ;
    replace (Z.succ (Zpos (digits2_pos p)) - 1)
      with (Z.succ (Zpos (digits2_pos p) - 1)) by lia;
    rewrite !Z.pow_succ_r by lia; lia.
Qed.

(** A right shift that leaves at least one digit keeps the mantissa
    positive and never lowers the exponent. *)
Lemma shr_positive (r : shr_record) (e n : Z) :
  0 < shr_m r -> n <= Zdigits2 (shr_m r) - 1 ->
  0 < shr_m (fst (shr r e n)) /\ snd (shr r e n) = e + Z.max 0 n.
Proof.
  intros Hm Hn. destruct (Z.leb_spec n 0) as [Hle | Hgt].
  - replace (shr r e n) with (r, e) by (destruct n; [reflexivity | lia | reflexivity]).
    cbn [fst snd]. split; [assumption | lia].
  - replace n with (Z.of_nat (Z.to_nat n)) at 1 2 by lia.
    rewrite shr_nat. cbn [fst snd]. split; [| lia].
    rewrite shr_iter_div by lia. rewrite Z2Nat.id by lia.
    apply Z.div_str_pos. split; [apply Z.pow_pos_nonneg; lia |].
    destruct (shr_m r) as [| p | p]; [lia | | lia].
    cbn [Zdigits2] in Hn. pose proof (digits_bounds p) as [Hlo _].
    apply Z.le_trans with (2 ^ (Zpos (digits2_pos p) - 1)); [| assumption].
    apply Z.pow_le_mono_r; lia.
Qed.

Lemma round_nearest_even_ge (m : Z) (l : location) :
  m <= round_nearest_even m l.
Proof.
  destruct l as [| []]; cbn; try destruct (Z.even m); lia.
Qed.

(** A value of magnitude at least [2^emax] rounds to infinity. *)
Lemma round_overflow (s : bool) (P : positive) (E : Z) :
  emax < Zpos (digits2_pos P) + E ->
  binary_round_aux prec emax s (Zpos P) E loc_Exact = S754_infinity s.
Proof.
  intros H. unfold binary_round_aux, shr_fexp.
  cbn [shr_record_of_loc Zdigits2].
  set (d := Zpos (digits2_pos P)) in *.
  assert (Hd : 1 <= d) by (subst d; lia).
  destruct (shr_positive (exact (Zpos P)) E (fexp prec emax (d + E) - E))
    as [Hm1 He1].
  { cbn; lia. }
  { cbn [exact shr_m Zdigits2]. fold d.
    unfold fexp, SpecFloat.emin, prec, emax in *. lia. }
  fold (exact (Zpos P)).
  destruct (shr (exact (Zpos P)) E (fexp prec emax (d + E) - E))
    as [r1 e1] eqn:E1.
  cbn [fst snd] in Hm1, He1.
  set (M := round_nearest_even (shr_m r1) (loc_of_shr_record r1)).
  assert (HM : 0 < M).
  { pose proof (round_nearest_even_ge (shr_m r1) (loc_of_shr_record r1)).
    subst M; lia. }
  assert (He1' : emax - prec < e1).
  { unfold fexp, SpecFloat.emin, prec, emax in *. lia. }
  destruct (shr_positive (exact M) e1
              (fexp prec emax (Zdigits2 M + e1) - e1)) as [Hm2 He2].
  { cbn; lia. }
  { cbn [exact shr_m]. destruct M as [| q | q]; [lia | | lia].
    cbn [Zdigits2].
    unfold fexp, SpecFloat.emin, prec, emax in *. lia. }
  fold (exact M).
  destruct (shr (exact M) e1 (fexp prec emax (Zdigits2 M + e1) - e1))
    as [r2 e2] eqn:E2.
  cbn [fst snd] in Hm2, He2.
  destruct (shr_m r2) as [| q | q]; [lia | | lia].
  destruct (Z.leb_spec e2 (emax - prec)); [lia | reflexivity].
Qed.

Lemma valid_finite_inv (s : bool) (m : positive) (e : Z) :
  valid (S754_finite s m e) = true ->
  Zpos (digits2_pos m) <= 53 /\ -1074 <= e <= 971
  /\ (Zpos (digits2_pos m) = 53 \/ e = -1074).
Proof.
  unfold valid, valid_binary, bounded, canonical_mantissa, fexp,
    SpecFloat.emin, prec, emax.
  rewrite andb_true_iff, Z.eqb_eq, Z.leb_le. lia.
Qed.

Lemma xorb_false_twice (s : bool) : xorb (xorb s false) false = xorb s false.
Proof. now destruct s. Qed.

(** Doubling is exact (or overflows), so multiplying by 2 and then by
    230 rounds once, exactly as multiplying by 460 does. *)
Lemma mul_2_230 (x : number) :
  valid x = true ->
  mul (mul x (of_Z 2)) (of_Z 230) = mul x (of_Z 460).
Proof.
  intros Hv. destruct x as [s | s | | s m e];
    try (destruct s; reflexivity); try reflexivity.
  apply valid_finite_inv in Hv. destruct Hv as (Hd & He & Hc).
  change (of_Z 2) with (S754_finite false 4503599627370496 (-51)).
  change (of_Z 230) with (S754_finite false 8092405580431360 (-45)).
  change (of_Z 460) with (S754_finite false 8092405580431360 (-44)).
  unfold mul. cbn [SFmul].
  replace (m * 4503599627370496)%positive with (Pos.shiftl_nat m 52)
    by (rewrite Pos.mul_comm; reflexivity).
  destruct (Z.eq_dec (Zpos (digits2_pos m)) 53) as [Hn | Hs].
  - (* normal: the exponent goes up by one *)
    rewrite round_shiftl
      by (unfold fexp, SpecFloat.emin, prec, emax; lia).
    replace (e + -51 + Z.of_nat 52) with (e + 1) by lia.
    destruct (Z.leb_spec (e + 1) (emax - prec)) as [Hle | Hgt].
    + cbn [SFmul]. rewrite xorb_false_twice. f_equal. lia.
    + cbn [SFmul]. rewrite xorb_false_twice. symmetry.
      apply round_overflow.
      assert (Hm : 2 ^ 52 <= Zpos m).
      { pose proof (digits_bounds m) as [Hlo _]. rewrite Hn in Hlo.
        exact Hlo. }
      pose proof (digits_bounds (m * 8092405580431360)) as [_ Hhi].
      rewrite Pos2Z.inj_mul in Hhi.
      assert (Hp : 2 ^ 104 < 2 ^ Zpos (digits2_pos (m * 8092405580431360))).
      { eapply Z.le_lt_trans; [| exact Hhi].
        change (2 ^ 104) with (2 ^ 52 * 2 ^ 52).
        apply Z.mul_le_mono_nonneg; lia. }
      apply Z.pow_lt_mono_r_iff in Hp; [| lia | lia].
      unfold prec, emax in *. lia.
  - (* subnormal: the mantissa doubles *)
    assert (e = -1074) by lia. subst e.
    change (Pos.shiftl_nat m 52) with (Pos.shiftl_nat (xO m) 51).
    rewrite round_shiftl.
    2:{ cbn [digits2_pos]. rewrite Pos2Z.inj_succ.
        unfold fexp, SpecFloat.emin, prec, emax. lia. }
    replace (-1074 + -51 + Z.of_nat 51) with (-1074) by lia.
    change (-1074 <=? emax - prec) with true. cbn [SFmul].
    rewrite xorb_false_twice.
    change (-1074 + -45) with (-1074 + -44 - 1).
    change (m~0 * 8092405580431360)%positive
      with (xO (m * 8092405580431360))%positive.
    apply round_double.
    unfold fexp, SpecFloat.emin, prec, emax. lia.
Qed.

(** [Math_ceil] of a positive value with a fractional part is the
integer ceiling of [m / 2^(-e)]. *)
Lemma Math_ceil_positive (m : positive) (e : Z) :
e < 0 ->
Math_ceil (S754_finite false m e) = of_Z (- (- Zpos m / 2 ^ (- e))).
Proof.
intros He. unfold Math_ceil, of_Z, of_Z2.
destruct (Z.leb_spec 0 e) as [| _]; [lia |].
rewrite Z.shiftr_div_pow2, Z.shiftl_mul_pow2 by lia.
set (k := 2 ^ (- e)).
assert (Hk : 0 < k) by (apply Z.pow_pos_nonneg; lia).
pose proof (Z.div_mod (Zpos m) k ltac:(lia)) as Hdm.
pose proof (Z.mod_pos_bound (Zpos m) k Hk) as Hr.
f_equal.
destruct (Z.eqb_spec (Zpos m) (Zpos m / k * k)) as [Heq | Hne].
- symmetry. apply Z.opp_inj. rewrite Z.opp_involutive.
  symmetry. apply Z.div_unique with 0; lia.
- symmetry. apply Z.opp_inj. rewrite Z.opp_involutive.
  symmetry. apply Z.div_unique with (k - Zpos m mod k); lia.
Qed.

End Rounding.

(** ** Facts about whole numbers *)

Section WholeNumbers.

Lemma shr_exponent (r : shr_record) (e n : Z) : e <= snd (shr r e n).
Proof. destruct n; cbn; lia. Qed.

(** What rounding returns: the sign it was given, and an exponent that
    is not below the one it was given. *)
Lemma round_shape (s : bool) (m e : Z) (l : location) :
  match binary_round_aux prec emax s m e l with
  | S754_finite s' _ e' => s' = s /\ e <= e'
  | S754_zero s' => s' = s
  | S754_infinity s' => s' = s
  | S754_nan => True
  end.
Proof.
  unfold binary_round_aux, shr_fexp.
  pose proof (shr_exponent (shr_record_of_loc m l) e
                (fexp prec emax (Zdigits2 m + e) - e)) as H1.
  destruct (shr (shr_record_of_loc m l) e
              (fexp prec emax (Zdigits2 m + e) - e)) as [r1 e1].
  cbn [snd] in H1.
  set (M := round_nearest_even (shr_m r1) (loc_of_shr_record r1)).
  pose proof (shr_exponent (shr_record_of_loc M loc_Exact) e1
                (fexp prec emax (Zdigits2 M + e1) - e1)) as H2.
  destruct (shr (shr_record_of_loc M loc_Exact) e1
              (fexp prec emax (Zdigits2 M + e1) - e1)) as [r2 e2].
  cbn [snd] in H2.
  destruct (shr_m r2); [reflexivity | | exact I].
  destruct (e2 <=? emax - prec); [split; [reflexivity | lia] | reflexivity].
Qed.

Lemma iter_xO_shiftl (p d : positive) :
  Pos.iter xO p d = Pos.shiftl_nat p (Pos.to_nat d).
Proof. unfold Pos.shiftl_nat. apply Pos2Nat.inj_iter. Qed.

Lemma shiftl_nat_value (p : positive) (k : nat) :
  Zpos (Pos.shiftl_nat p k) = Zpos p * 2 ^ Z.of_nat k.
Proof.
  induction k as [| k IH]; [cbn; lia |].
  change (Pos.shiftl_nat p (S k)) with (xO (Pos.shiftl_nat p k)).
  rewrite Pos2Z.inj_xO, IH, Nat2Z.inj_succ, Z.pow_succ_r by lia. lia.
Qed.

(** An integer converts to a number without fractional part, of the
    sign given for it. *)
Lemma round_integer (s : bool) (p : positive) :
  whole (binary_round prec emax s p 0) = true
  /\ (negative (binary_round prec emax s p 0) = true -> s = true).
Proof.
  unfold binary_round, shl_align.
  set (F := fexp prec emax (Zpos (digits2_pos p) + 0)).
  destruct (F - 0) as [| d | d] eqn:HF.
  - pose proof (round_shape s (Zpos p) 0 loc_Exact) as H.
    destruct (binary_round_aux prec emax s (Zpos p) 0 loc_Exact)
      as [s' | s' | | s' m' e']; cbn [whole negative];
      try (split; congruence).
    destruct H as [-> He]. split; [| trivial].
    destruct (Z.leb_spec 0 e'); [reflexivity | lia].
  - pose proof (round_shape s (Zpos p) 0 loc_Exact) as H.
    destruct (binary_round_aux prec emax s (Zpos p) 0 loc_Exact)
      as [s' | s' | | s' m' e']; cbn [whole negative];
      try (split; congruence).
    destruct H as [-> He]. split; [| trivial].
    destruct (Z.leb_spec 0 e'); [reflexivity | lia].
  - assert (HFd : F = Zneg d) by lia.
    rewrite iter_xO_shiftl.
    pose proof (round_shiftl s (Pos.shiftl_nat p (Pos.to_nat d)) 0 F) as R.
    cbn [Pos.shiftl_nat nat_rect] in R. fold (Pos.shiftl_nat p (Pos.to_nat d)) in R.
    rewrite digits_shiftl in R.
    rewrite R.
    2:{ replace (Zpos (digits2_pos p) + Z.of_nat (Pos.to_nat d)
                 + (F + Z.of_nat 0))
          with (Zpos (digits2_pos p) + 0) by lia.
        fold F. lia. }
    destruct (F + Z.of_nat 0 <=? emax - prec); cbn [whole negative];
      [| split; trivial].
    split; [| trivial].
    rewrite shiftl_nat_value. apply orb_true_iff. right.
    apply Z.eqb_eq.
    replace (- (F + Z.of_nat 0)) with (Z.of_nat (Pos.to_nat d)) by lia.
    apply Z.mod_mul. apply Z.pow_nonzero; lia.
Qed.

Lemma normalize_integer (z : Z) :
  whole (binary_normalize prec emax z 0 false) = true
  /\ whole (binary_normalize prec emax z 0 true) = true
  /\ (0 <= z -> negative (binary_normalize prec emax z 0 false) = false).
Proof.
  destruct z as [| p | p]; cbn [binary_normalize].
  - repeat split.
  - destruct (round_integer false p) as [W N]. repeat split; try assumption.
    destruct (negative (binary_round prec emax false p 0));
      [discriminate (N eq_refl) | reflexivity].
  - destruct (round_integer true p) as [W _]. repeat split; try assumption.
    lia.
Qed.

Lemma Math_ceil_whole (x : number) : whole (Math_ceil x) = true.
Proof.
  destruct x as [s | s | | s m e]; try reflexivity.
  unfold Math_ceil. destruct (Z.leb_spec 0 e) as [He | He].
  - cbn [whole]. destruct (Z.leb_spec 0 e); [reflexivity | lia].
  - destruct s.
    + destruct (Z.shiftr (Zpos m) (- e)); try reflexivity;
        apply normalize_integer.
    + apply normalize_integer.
Qed.

Lemma Math_ceil_sign (x : number) :
  negative x = false -> negative (Math_ceil x) = false.
Proof.
  destruct x as [s | s | | s m e]; try exact (fun H => H).
  cbn [negative]. intros ->. unfold Math_ceil.
  destruct (0 <=? e); [reflexivity |].
  apply normalize_integer.
  assert (0 <= Z.shiftr (Zpos m) (- e)) by (apply Z.shiftr_nonneg; lia).
  destruct (Zpos m =? Z.shiftl (Z.shiftr (Zpos m) (- e)) (- e)); lia.
Qed.

Lemma round_sign (m e : Z) (l : location) :
  negative (binary_round_aux prec emax false m e l) = false.
Proof.
  pose proof (round_shape false m e l) as H.
  destruct (binary_round_aux prec emax false m e l); cbn [negative];
    try assumption; [reflexivity | apply H].
Qed.

Lemma mul_sign (x y : number) :
  negative x = false -> negative y = false -> negative (mul x y) = false.
Proof.
  destruct x as [sx | sx | | sx mx ex], y as [sy | sy | | sy my ey];
    cbn [negative]; intros Hx Hy; subst; try reflexivity.
  apply round_sign.
Qed.

Lemma div_sign (x y : number) :
  negative x = false -> negative y = false -> negative (div x y) = false.
Proof.
  destruct x as [sx | sx | | sx mx ex], y as [sy | sy | | sy my ey];
    cbn [negative]; intros Hx Hy; subst; try reflexivity.
  unfold div, SFdiv.
  destruct (SFdiv_core_binary prec emax (Zpos mx) ex (Zpos my) ey)
    as [[mz ez] lz].
  apply round_sign.
Qed.

(** The least integer that is not below [m / k]. *)
Lemma ceiling_bounds (m k : Z) :
  0 < k -> let n := - (- m / k) in (n - 1) * k < m <= n * k.
Proof.
  intros Hk n. subst n.
  pose proof (Z.div_mod (- m) k ltac:(lia)) as E.
  pose proof (Z.mod_pos_bound (- m) k Hk) as B.
  nia.
Qed.

End WholeNumbers.

(** ** Facts about the component *)

Section ComponentFacts.

Local Open Scope string_scope.

Lemma truthy_false (s : string) : Str.truthy s = false <-> s = "".
Proof.
  unfold Str.truthy. destruct (String.eqb_spec s ""); cbn; split; congruence.
Qed.

Lemma truthy_true (s : string) : Str.truthy s = true <-> s <> "".
Proof.
  unfold Str.truthy. destruct (String.eqb_spec s ""); cbn; split; congruence.
Qed.

(** *** The normalisation of the request *)

Lemma upper_char_is_space (c : ascii) :
(" " =? Str.upper_char c)%char = (" " =? c)%char.
Proof. destruct c as [[] [] [] [] [] [] [] []]; reflexivity. Qed.

Lemma upper_char_not_lower (c : ascii) :
Str.is_lower (Str.upper_char c) = false.
Proof. destruct c as [[] [] [] [] [] [] [] []]; reflexivity. Qed.

Lemma lower_char_not_upper (c : ascii) :
Str.is_upper (Str.lower_char c) = false.
Proof. destruct c as [[] [] [] [] [] [] [] []]; reflexivity. Qed.

Lemma toUpperCase_no_lower (s : string) :
Str.forallb (fun c => negb (Str.is_lower c)) (Str.toUpperCase s) = true.
Proof.
induction s as [| c s IH]; [reflexivity |].
cbn. now rewrite upper_char_not_lower, IH.
Qed.

Lemma toLowerCase_no_upper (s : string) :
Str.forallb (fun c => negb (Str.is_upper c)) (Str.toLowerCase s) = true.
Proof.
induction s as [| c s IH]; [reflexivity |].
cbn. now rewrite lower_char_not_upper, IH.
Qed.

Lemma toUpperCase_spaces (s : string) :
Str.count " " (Str.toUpperCase s) = Str.count " " s.
Proof.
induction s as [| c s IH]; [reflexivity |].
cbn [Str.toUpperCase Str.map Str.count].
rewrite upper_char_is_space. fold (Str.toUpperCase s). now rewrite IH.
Qed.

(** [replace(' ', '')] takes one space away, when there is one. *)
Lemma replace_space_count (s : string) :
Str.count " " (Str.replace " " "" s) = Nat.pred (Str.count " " s).
Proof.
induction s as [| c s IH]; [reflexivity |].
cbn [Str.replace prefix Str.count].
destruct (ascii_dec " " c) as [<- | Hc].
- destruct s; reflexivity.
- destruct (Ascii.eqb_spec " " c) as [| _]; [contradiction |].
  cbn [Str.count]. destruct (Ascii.eqb_spec " " c) as [| _]; [contradiction |].
  exact IH.
Qed.

(** What is sent: upper case without the first space for the postcodes,
lower case for the travel method. *)
Lemma request_normalisation (s : state) :
let body := req_body (visualize_request s) in
Str.forallb (fun c => negb (Str.is_lower c)) (body_origin body) = true
/\ Str.forallb (fun c => negb (Str.is_lower c)) (body_destination body) = true
/\ Str.forallb (fun c => negb (Str.is_upper c)) (body_mode body) = true
/\ Str.count " " (body_origin body) = Nat.pred (Str.count " " (homePostcode s))
/\ Str.count " " (body_destination body)
   = Nat.pred (Str.count " " (workPostcode s)).
Proof.
cbn. repeat split;
  auto using toUpperCase_no_lower, toLowerCase_no_upper;
  now rewrite toUpperCase_spaces, replace_space_count.
Qed.

(** *** Handlers and effects *)

Lemma st_perform (w : world) (e : effect) :
  st (perform w e) = set_state (st w) e.
Proof.
  destruct e; try reflexivity.
  cbn [perform]. destruct (Url.pushState (loc w) url); reflexivity.
Qed.

Lemma st_perform_all (es : list effect) (w : world) :
  st (perform_all w es) = after (st w) es.
Proof.
  unfold perform_all, after. revert w.
  induction es as [| e es IH]; intros w; [reflexivity |].
  cbn [fold_left]. rewrite IH, st_perform. reflexivity.
Qed.

(** The effects of a submission with an empty input. *)
Lemma handleVisualize_unfilled (s : state) (o : fetch_outcome) :
  filled s = false ->
  handleVisualize s o = [SetError (Some "Please fill in all fields")].
Proof.
  unfold filled, handleVisualize. intros H.
  destruct (Str.truthy (homePostcode s)), (Str.truthy (workPostcode s)),
    (Str.truthy (travelMethod s)); cbn in H |- *; congruence.
Qed.

(** The effects of a submission with all inputs filled in. *)
Lemma handleVisualize_filled (s : state) (o : fetch_outcome) :
  filled s = true ->
  handleVisualize s o
  = ([SetIsLoading true; SetError None; Fetch endpoint (visualize_request s)]
     ++ fst (visualize_try o)
     ++ match failure o with
        | Some err => [SetError (Some (catch_message err))]
        | None => []
        end
     ++ [SetIsLoading false])%list.
Proof.
  unfold filled, handleVisualize, failure. intros H.
  destruct (Str.truthy (homePostcode s)), (Str.truthy (workPostcode s)),
    (Str.truthy (travelMethod s)); cbn in H; try discriminate.
  cbn [negb orb]. destruct (visualize_try o) as [done exn]; cbn [fst snd].
  rewrite <- !app_assoc. reflexivity.
Qed.

Lemma failure_none_iff (o : fetch_outcome) :
  failure o = None
  <-> exists v n, o = FetchResponse true (JsonData (PayloadWith v))
                  /\ calculateTreesNeeded v = inr n.
Proof.
  split.
  - destruct o as [err | [|] [err | [| v]]]; cbn; try discriminate.
    unfold failure. cbn.
    destruct (calculateTreesNeeded v) as [err | n] eqn:E; [discriminate |].
    intros _. now exists v, n.
  - intros (v & n & -> & E). unfold failure. cbn. now rewrite E.
Qed.

(** A successful call stores the payload's value and what the formula
    gives for it. *)
Lemma handleVisualize_success (s : state) (v : value) (n : number) :
  filled s = true -> calculateTreesNeeded v = inr n ->
  let s' := after s (handleVisualize s
                       (FetchResponse true (JsonData (PayloadWith v)))) in
  carbonEmissions s' = v /\ treesNeeded s' = n
  /\ error s' = None /\ isLoading s' = false.
Proof.
  intros F E s'. subst s'. rewrite handleVisualize_filled by assumption.
  unfold failure. cbn [visualize_try read_emissions]. rewrite E.
  repeat split.
Qed.

(** A failed call stores the message and lowers the loading flag.  The
    estimate is written only when the payload's value has been read
    and the formula throws on it. *)
Lemma handleVisualize_failure (s : state) (o : fetch_outcome) (err : thrown) :
  filled s = true -> failure o = Some err ->
  let s' := after s (handleVisualize s o) in
  error s' = Some (catch_message err) /\ isLoading s' = false
  /\ isSharedView s' = isSharedView s
  /\ treesNeeded s' = treesNeeded s
  /\ (fails_early o = true -> carbonEmissions s' = carbonEmissions s)
  /\ (forall v, o = FetchResponse true (JsonData (PayloadWith v)) ->
        carbonEmissions s' = v /\ calculateTreesNeeded v = inl err).
Proof.
  intros F Hf s'. subst s'. rewrite handleVisualize_filled by assumption.
  rewrite Hf. unfold failure in Hf.
  destruct o as [e | [|] [e | [| v]]]; cbn in Hf |- *;
    try (repeat split; try discriminate; try congruence;
         intros v' Hv'; discriminate).
  destruct (calculateTreesNeeded v) as [e | n] eqn:E; cbn in Hf |- *;
    [| discriminate].
  injection Hf as <-. repeat split; try discriminate;
    injection H as <-; [reflexivity | assumption].
Qed.

(** *** Controls *)

(** Whether the render completes is decided by the estimate: [null]
    leaves the result out, a number is formatted, anything else has no
    [toFixed]. *)
Lemma mounted_spec (s : state) :
  mounted s = match carbonEmissions s with
              | VNull | VNum _ => true
              | _ => false
              end.
Proof.
  unfold mounted, render.
  destruct (isSharedView s); destruct (carbonEmissions s); reflexivity.
Qed.

(** The controls by the state: the form outside the shared view, the
    share button there too once the estimate is a number, the reset
    button in the shared view; none when the render throws. *)
Lemma enabled_spec (s : state) (ev : event) :
  enabled s ev
  = match ev with
    | TimerFires => true
    | ChangeHome _ | ChangeWork _ | ChangeMethod _ =>
        mounted s && negb (isSharedView s)
    | ClickVisualize _ =>
        mounted s && (negb (isSharedView s) && negb (isLoading s))
    | ClickShare _ =>
        match carbonEmissions s with
        | VNum _ => negb (isSharedView s)
        | _ => false
        end
    | ClickReset => mounted s && isSharedView s
    end.
Proof.
  rewrite mounted_spec. unfold enabled, render.
  destruct ev; try reflexivity;
    destruct (isSharedView s); destruct (carbonEmissions s); reflexivity.
Qed.

(** The reset button: the query and the flag are cleared, or the
    address is refused and nothing changes. *)
Lemma perform_reset (w : world) :
  perform_all w (handleReset (loc w))
  = match Url.pushState (loc w) (Url.pathname (loc w)) with
    | Some l => {| st := set_state (st w) (SetIsSharedView false);
                   loc := l; timers := timers w |}
    | None => w
    end.
Proof.
  unfold handleReset.
  destruct (Url.pushState (loc w) (Url.pathname (loc w))) eqn:P;
    cbn [perform_all fold_left perform]; rewrite P; reflexivity.
Qed.

(** The ways in which one event acts on the estimate. *)
Ltac estimate_untouched :=
  split; [assumption | left; split; reflexivity].

(** One event leaves the estimate alone, or stores one together with
    what the formula gives for it, or stores one on which the formula
    throws. *)
Lemma step_estimate (w : world) (ev : event) :
  tooltip_timers w ->
  tooltip_timers (step w ev)
  /\ ((carbonEmissions (st (step w ev)) = carbonEmissions (st w)
       /\ treesNeeded (st (step w ev)) = treesNeeded (st w))
      \/ calculateTreesNeeded (carbonEmissions (st (step w ev)))
         = inr (treesNeeded (st (step w ev)))
      \/ exists err, calculateTreesNeeded (carbonEmissions (st (step w ev)))
                     = inl err).
Proof.
  intros Ht. unfold step.
  destruct (enabled (st w) ev); [| estimate_untouched].
  destruct ev as [text | text | m | o | clip | |];
    try estimate_untouched.
  - cbn [handle]. split.
    + destruct (filled (st w)) eqn:F.
      * rewrite handleVisualize_filled by assumption.
        destruct o as [e | [|] [e | [| v]]]; try exact Ht.
        unfold failure. cbn [visualize_try read_emissions].
        destruct (calculateTreesNeeded v); exact Ht.
      * rewrite handleVisualize_unfilled by assumption. exact Ht.
    + rewrite st_perform_all. destruct (filled (st w)) eqn:F.
      * destruct (failure o) as [err |] eqn:Hf.
        -- pose proof (handleVisualize_failure (st w) o err F Hf) as H.
           cbn zeta in H. destruct H as (_ & _ & _ & Hn & He & Hl).
           destruct (fails_early o) eqn:Early; [left; auto |].
           destruct o as [e | [|] [e | [| v]]]; try discriminate.
           destruct (Hl v eq_refl) as [Hc Hv].
           right; right. exists err. now rewrite Hc.
        -- right; left. apply failure_none_iff in Hf as (v & n & -> & E).
           pose proof (handleVisualize_success (st w) v n F E) as H.
           cbn zeta in H. destruct H as (-> & -> & _). exact E.
      * rewrite handleVisualize_unfilled by assumption.
        left; split; reflexivity.
  - cbn [handle]. unfold handleShare.
    destruct (generateShareableLink (st w) (loc w)) as [e | link];
      [estimate_untouched |].
    destruct clip as [e |]; [estimate_untouched |].
    split; [| left; split; reflexivity].
    unfold tooltip_timers in *. cbn. apply Forall_app. split; [exact Ht |].
    repeat constructor.
  - cbn [handle]. rewrite perform_reset.
    destruct (Url.pushState (loc w) (Url.pathname (loc w)));
      estimate_untouched.
  - cbn [handle]. unfold tooltip_timers in *.
    destruct (timers w) as [| cb rest] eqn:Tw.
    + split; [| left; split; reflexivity]. cbn. constructor.
    + inversion Ht as [| ? ? Hcb Hrest]; subst.
      destruct (mounted (st w));
        (split; [| left; split; reflexivity]); cbn; exact Hrest.
Qed.

(** A property of the estimate that the formula establishes is kept
    along every run. *)
Lemma steps_preserve (P : value -> number -> Prop) :
  (forall v n, calculateTreesNeeded v = inr n -> P v n) ->
  (forall v n err, calculateTreesNeeded v = inl err -> P v n) ->
  forall (evs : list event) (w : world),
    tooltip_timers w ->
    P (carbonEmissions (st w)) (treesNeeded (st w)) ->
    let w' := fold_left step evs w in
    tooltip_timers w'
    /\ P (carbonEmissions (st w')) (treesNeeded (st w')).
Proof.
  intros HP HP' evs. induction evs as [| ev evs IH]; intros w Ht Hw;
    [now split |].
  cbn [fold_left].
  destruct (step_estimate w ev Ht) as [Ht' [[Hc Hn] | [Hf | [err Hf]]]];
    apply IH; try assumption.
  - rewrite Hc, Hn. exact Hw.
  - apply HP. exact Hf.
  - apply (HP' _ _ err). exact Hf.
Qed.

Lemma initial_formula : formula_holds initial_state.
Proof. intros n H. injection H as <-. reflexivity. Qed.

(** What the mount effect does, by the query of the address. *)
Lemma mount_effect_cases (l : Url.location) :
  let params := Url.parse (Url.search l) in
  (mount_effect l = []
   /\ ~ (exists trees emissions,
            Url.get params "trees" = Some trees /\ trees <> ""
            /\ Url.get params "emissions" = Some emissions
            /\ emissions <> ""))
  \/ (exists trees emissions tail,
         Url.get params "trees" = Some trees /\ trees <> ""
         /\ Url.get params "emissions" = Some emissions /\ emissions <> ""
         /\ mount_effect l
            = [ SetTreesNeeded (parseInt10 trees);
                SetCarbonEmissions (VNum (parseFloat emissions));
                SetIsSharedView true ] ++ tail
         /\ (tail = [] \/ exists method, tail = [SetTravelMethod method]))%list.
Proof.
  intros params. unfold mount_effect. fold params.
  destruct (Url.get params "trees") as [trees |];
    [| left; split; [reflexivity | intros (t & e & H & _); discriminate]].
  destruct (Url.get params "emissions") as [emissions |];
    [| left; split;
       [reflexivity | intros (t & e & _ & _ & H & _); discriminate]].
  destruct (Str.truthy trees) eqn:Tt; cbn [andb].
  - destruct (Str.truthy emissions) eqn:Te.
    + right. exists trees, emissions.
      apply truthy_true in Tt, Te.
      destruct (Url.get params "method") as [method |].
      * destruct (Str.truthy method).
        -- exists [SetTravelMethod method]. repeat split; eauto.
        -- exists []. repeat split; auto.
      * exists []. repeat split; auto.
    + left. split; [reflexivity |].
      intros (t & e & _ & _ & H & Hne). injection H as <-.
      apply truthy_false in Te. contradiction.
  - left. split; [reflexivity |].
    intros (t & e & H & Hne & _). injection H as <-.
    apply truthy_false in Tt. contradiction.
Qed.

Lemma load_timers (l : Url.location) : tooltip_timers (load l).
Proof.
  unfold tooltip_timers, load.
  destruct (mount_effect_cases l)
    as [[-> _] | (t & e & tail & _ & _ & _ & _ & -> & [-> | [m ->]])];
    constructor.
Qed.

Lemma resolve_unbound (globals : list string) (name : string) :
  existsb (String.eqb name) (declared ++ browser_globals) = false ->
  existsb (String.eqb name) globals = false ->
  resolve globals name
  = inl (ErrorObject "ReferenceError" (name ++ " is not defined")).
Proof.
  intros Hd Hg. unfold resolve.
  rewrite app_assoc, existsb_app, Hd, Hg. reflexivity.
Qed.

End ComponentFacts.

(** ** Facts about query strings and links *)

Section QueryStrings.

Local Open Scope string_scope.

Lemma append_nil_r (s : string) : s ++ "" = s.
Proof. induction s as [| c s IH]; [reflexivity | cbn; now rewrite IH]. Qed.

Lemma append_assoc (a b c : string) : (a ++ b) ++ c = a ++ (b ++ c).
Proof. induction a as [| x a IH]; [reflexivity | cbn; now rewrite IH]. Qed.

Lemma contains_app (c : ascii) (a b : string) :
  Str.contains c (a ++ b) = Str.contains c a || Str.contains c b.
Proof.
  induction a as [| x a IH]; [reflexivity |].
  cbn. now rewrite IH, orb_assoc.
Qed.

Lemma urlencode_cons (c : ascii) (s : string) :
  Url.urlencode (String c s) = Url.urlencode (String c "") ++ Url.urlencode s.
Proof. cbn [Url.urlencode]. now rewrite append_nil_r. Qed.

(** The serializer writes neither [&] nor [=]. *)
Lemma urlencode_char_clean (c : ascii) :
  Str.contains "&" (Url.urlencode (String c "")) = false
  /\ Str.contains "=" (Url.urlencode (String c "")) = false.
Proof. destruct c as [[] [] [] [] [] [] [] []]; split; reflexivity. Qed.

Lemma urlencode_clean (s : string) :
  Str.contains "&" (Url.urlencode s) = false
  /\ Str.contains "=" (Url.urlencode s) = false.
Proof.
  induction s as [| c s [IH1 IH2]]; [split; reflexivity |].
  rewrite urlencode_cons, !contains_app, IH1, IH2.
  destruct (urlencode_char_clean c) as [-> ->]. split; reflexivity.
Qed.

(** Decoding undoes the serializer, byte by byte. *)
Lemma decode_encode_char (c : ascii) (s : string) :
  Url.percent_decode (Url.plus_to_space (Url.urlencode (String c s)))
  = String c (Url.percent_decode (Url.plus_to_space (Url.urlencode s))).
Proof. destruct c as [[] [] [] [] [] [] [] []]; reflexivity. Qed.

Lemma decode_encode (s : string) :
  Url.percent_decode (Url.plus_to_space (Url.urlencode s)) = s.
Proof.
  induction s as [| c s IH]; [reflexivity |].
  now rewrite decode_encode_char, IH.
Qed.

Lemma split_clean (sep : ascii) (a : string) :
  Str.contains sep a = false -> Url.split sep a = [a].
Proof.
  induction a as [| x a IH]; [reflexivity |].
  cbn [Str.contains Url.split]. intros H. apply orb_false_iff in H as [Hx Ha].
  rewrite Ascii.eqb_sym, Hx, (IH Ha). reflexivity.
Qed.

Lemma split_app (sep : ascii) (a b : string) :
  Str.contains sep a = false ->
  Url.split sep (a ++ String sep b) = a :: Url.split sep b.
Proof.
  induction a as [| x a IH]; intros H.
  - cbn. now rewrite Ascii.eqb_refl.
  - cbn [Str.contains] in H. apply orb_false_iff in H as [Hx Ha].
    cbn [append Url.split]. rewrite Ascii.eqb_sym, Hx, (IH Ha). reflexivity.
Qed.

Lemma split_first_app (sep : ascii) (a b : string) :
  Str.contains sep a = false ->
  Url.split_first sep (a ++ String sep b) = (a, b).
Proof.
  induction a as [| x a IH]; intros H.
  - cbn. now rewrite Ascii.eqb_refl.
  - cbn [Str.contains] in H. apply orb_false_iff in H as [Hx Ha].
    cbn [append Url.split_first]. rewrite Ascii.eqb_sym, Hx, (IH Ha).
    reflexivity.
Qed.

Lemma toString_pieces (params : Url.URLSearchParams) :
  Url.toString params = Str.join "&" (List.map piece params).
Proof.
  unfold Url.toString. f_equal. apply map_ext. now intros [n v].
Qed.

Lemma piece_clean (p : string * string) :
  Str.contains "&" (piece p) = false /\ Str.truthy (piece p) = true.
Proof.
  unfold piece. split.
  - rewrite contains_app. cbn [Str.contains].
    destruct (urlencode_clean (fst p)) as [-> _].
    destruct (urlencode_clean (snd p)) as [-> _]. reflexivity.
  - destruct (Url.urlencode (fst p)); reflexivity.
Qed.

Lemma split_join (pieces : list string) :
  Forall (fun x => Str.contains "&" x = false) pieces ->
  pieces <> [] ->
  Url.split "&" (Str.join "&" pieces) = pieces.
Proof.
  induction pieces as [| x rest IH]; intros Hc Hne; [contradiction |].
  inversion Hc as [| ? ? Hx Hrest]; subst.
  destruct rest as [| y rest'].
  - cbn. now apply split_clean.
  - change (Str.join "&" (x :: y :: rest'))
      with (x ++ String "&" (Str.join "&" (y :: rest'))).
    rewrite split_app by assumption. f_equal. apply IH; [assumption |].
    discriminate.
Qed.

Lemma decode_piece (p : string * string) :
  (let (name, value) := Url.split_first "=" (piece p) in
   (Url.percent_decode (Url.plus_to_space name),
    Url.percent_decode (Url.plus_to_space value))) = p.
Proof.
  unfold piece. rewrite split_first_app by apply urlencode_clean.
  rewrite !decode_encode. now destruct p.
Qed.

(** Parsing the serialized parameters gives them back. *)
Lemma parse_toString (params : Url.URLSearchParams) :
  Url.parse (String "?" (Url.toString params)) = params.
Proof.
  unfold Url.parse. rewrite toString_pieces.
  destruct params as [| p params]; [reflexivity |].
  rewrite split_join.
  - rewrite forallb_filter_id.
    + rewrite map_map.
      rewrite (map_ext _ (fun p => p) decode_piece). apply map_id.
    + apply forallb_forall. intros x Hx. apply in_map_iff in Hx as [q [<- _]].
      apply piece_clean.
  - apply Forall_forall. intros x Hx. apply in_map_iff in Hx as [q [<- _]].
    apply piece_clean.
  - discriminate.
Qed.

End QueryStrings.

Section LinkFacts.

Local Open Scope string_scope.
Local Open Scope Z_scope.

Lemma append_nonempty_l (a b : string) : a <> "" -> a ++ b <> "".
Proof. destruct a; [congruence | discriminate]. Qed.

Lemma append_nonempty_r (a b : string) : b <> "" -> a ++ b <> "".
Proof. destruct a; [trivial | discriminate]. Qed.

Lemma decimal_nonempty (n : Z) : decimal n <> "".
Proof.
  unfold decimal, NilZero.string_of_uint.
  destruct (N.to_uint (Z.to_N n)); discriminate.
Qed.

Lemma format_digits_nonempty (s k n : Z) : format_digits s k n <> "".
Proof.
  unfold format_digits.
  destruct ((k <=? n) && (n <=? 21))%bool;
    [apply append_nonempty_l, decimal_nonempty |].
  destruct ((0 <? n) && (n <=? 21))%bool;
    [apply append_nonempty_r; discriminate |].
  destruct ((-6 <? n) && (n <=? 0))%bool; [discriminate |].
  destruct (k =? 1)%Z.
  - apply append_nonempty_l, decimal_nonempty.
  - apply append_nonempty_r; discriminate.
Qed.

(** The text of a number is never empty. *)
Lemma Number_toString_nonempty (x : number) : Number_toString x <> "".
Proof.
  destruct x as [s | s | | s m e]; cbn [Number_toString];
    try discriminate.
  - destruct s; discriminate.
  - destruct (shortest m e) as [[d k] n].
    apply append_nonempty_r, format_digits_nonempty.
Qed.

(** The serializer writes no [#]. *)
Lemma urlencode_no_hash (s : string) :
  Str.contains "#" (Url.urlencode s) = false.
Proof.
  induction s as [| c s IH]; [reflexivity |].
  rewrite urlencode_cons, contains_app, IH, orb_false_r.
  destruct c as [[] [] [] [] [] [] [] []]; reflexivity.
Qed.

Lemma toString_no_hash (params : Url.URLSearchParams) :
  Str.contains "#" (Url.toString params) = false.
Proof.
  rewrite toString_pieces.
  induction params as [| p params IH]; [reflexivity |].
  assert (Hp : Str.contains "#" (piece p) = false).
  { unfold piece. rewrite contains_app. cbn [Str.contains].
    now rewrite !urlencode_no_hash. }
  destruct params as [| p' params]; [exact Hp |].
  change (Str.join "&" (List.map piece (p :: p' :: params)))
    with (piece p ++ String "&" (Str.join "&" (List.map piece (p' :: params)))).
  rewrite contains_app, Hp. cbn [Str.contains orb Ascii.eqb Bool.eqb].
  exact IH.
Qed.

Lemma until_hash_clean (s : string) :
  Str.contains "#" s = false -> Url.until_hash s = s.
Proof.
  induction s as [| c s IH]; [reflexivity |].
  cbn [Str.contains Url.until_hash]. intros H.
  apply orb_false_iff in H as [Hc Hs].
  rewrite Ascii.eqb_sym, Hc, (IH Hs). reflexivity.
Qed.

Lemma after_question_app (a b : string) :
  Url.no_delimiter a = true ->
  Url.after_question (a ++ String "?" b) = Some b.
Proof.
  unfold Url.no_delimiter. induction a as [| c a IH]; [reflexivity |].
  cbn [Str.contains append Url.after_question]. intros H.
  apply andb_true_iff in H as [Hq Hh].
  apply negb_true_iff, orb_false_iff in Hq as [Hq Hqa].
  apply negb_true_iff, orb_false_iff in Hh as [Hh Hha].
  rewrite (Ascii.eqb_sym c "#"), Hh, (Ascii.eqb_sym c "?"), Hq.
  apply IH. now rewrite Hqa, Hha.
Qed.

(** The query of an address that is followed by [?] and a text without
    [#] is that text. *)
Lemma query_of_link (a q : string) :
  Url.no_delimiter a = true -> Str.contains "#" q = false ->
  Url.query_of (a ++ "?" ++ q) = q.
Proof.
  intros Ha Hq. unfold Url.query_of.
  change (a ++ "?" ++ q) with (a ++ String "?" q).
  rewrite after_question_app by assumption. now apply until_hash_clean.
Qed.

(** The link of a numeric estimate on a page without fragment, and the
    component mounted at that link. *)
Lemma generated_link_loads (s : state) (l : Url.location) (x : number) :
  carbonEmissions s = VNum x -> Url.hash l = "" ->
  let params := ([("trees", Number_toString (treesNeeded s));
                  ("emissions", Number_toString x)]
                 ++ if Str.truthy (travelMethod s)
                    then [("method", travelMethod s)] else [])%list in
  generateShareableLink s l = inr (Url.href (opened l (Url.toString params)))
  /\ st (load (opened l (Url.toString params)))
     = after initial_state
         ([SetTreesNeeded (parseInt10 (Number_toString (treesNeeded s)));
           SetCarbonEmissions (VNum (parseFloat (Number_toString x)));
           SetIsSharedView true]
          ++ if Str.truthy (travelMethod s)
             then [SetTravelMethod (travelMethod s)] else [])%list.
Proof.
  intros Hx Hh params. split.
  - unfold generateShareableLink, share_params. rewrite Hx.
    cbn [value_toString bind].
    unfold Url.href_without_search, Url.href, opened.
    cbn [Url.origin Url.pathname Url.search Url.hash].
    rewrite Hh, !append_nil_r, append_assoc. subst params.
    destruct (Str.truthy (travelMethod s)); reflexivity.
  - unfold load. rewrite st_perform_all. unfold mount_effect, opened.
    cbn [Url.search]. rewrite parse_toString. subst params.
    cbn [app Url.get String.eqb Ascii.eqb Bool.eqb].
    pose proof (Number_toString_nonempty (treesNeeded s)) as Ht.
    pose proof (Number_toString_nonempty x) as He.
    apply truthy_true in Ht, He. rewrite Ht, He. cbn [andb].
    destruct (Str.truthy (travelMethod s)) eqn:Tm.
    + cbn [Url.get String.eqb Ascii.eqb Bool.eqb]. rewrite Tm. reflexivity.
    + reflexivity.
Qed.

End LinkFacts.

(** ** Facts about the view modes *)

Section ViewFacts.

Local Open Scope string_scope.

Lemma world_eta (w : world) :
  {| st := st w; loc := loc w; timers := timers w |} = w.
Proof. now destruct w. Qed.

Lemma load_world (l : Url.location) :
  loc (load l) = l /\ timers (load l) = [].
Proof.
  unfold load.
  destruct (mount_effect_cases l)
    as [[-> _] | (t & e & tail & _ & _ & _ & _ & -> & [-> | [m ->]])];
    split; reflexivity.
Qed.

(** No event raises the shared-view flag. *)
Lemma step_keeps_out_of_shared_view (w : world) (ev : event) :
  tooltip_timers w -> isSharedView (st w) = false ->
  isSharedView (st (step w ev)) = false.
Proof.
  intros Ht Hs. unfold step. destruct (enabled (st w) ev); [| exact Hs].
  rewrite st_perform_all.
  destruct ev as [text | text | m | o | clip | |]; cbn [handle st];
    try exact Hs.
  - destruct (filled (st w)) eqn:F.
    + destruct (failure o) as [err |] eqn:Hf.
      * pose proof (handleVisualize_failure (st w) o err F Hf) as H.
        cbn zeta in H. destruct H as (_ & _ & -> & _). exact Hs.
      * apply failure_none_iff in Hf as (v & n & -> & E).
        rewrite handleVisualize_filled by assumption.
        unfold failure. cbn [visualize_try read_emissions]. rewrite E.
        exact Hs.
    + rewrite handleVisualize_unfilled by assumption. exact Hs.
  - unfold handleShare.
    destruct (generateShareableLink (st w) (loc w)); [exact Hs |].
    destruct clip; exact Hs.
  - unfold handleReset.
    destruct (Url.pushState (loc w) (Url.pathname (loc w)));
      [reflexivity | exact Hs].
  - unfold tooltip_timers in Ht. destruct (timers w) as [| cb rest];
      [exact Hs |].
    inversion Ht; subst. destruct (mounted (st w)); exact Hs.
Qed.

Lemma steps_keep_out_of_shared_view (evs : list event) (w : world) :
  tooltip_timers w -> isSharedView (st w) = false ->
  isSharedView (st (fold_left step evs w)) = false.
Proof.
  revert w. induction evs as [| ev evs IH]; intros w Ht Hs; [exact Hs |].
  cbn [fold_left]. apply IH.
  - apply (step_estimate w ev Ht).
  - now apply step_keeps_out_of_shared_view.
Qed.

Lemma run_timers (l : Url.location) (evs : list event) :
  tooltip_timers (run l evs).
Proof.
  unfold run.
  apply (steps_preserve (fun _ _ => True)); auto using load_timers.
Qed.

(** As long as the shared view is on, nothing has changed since the
    load. *)
Lemma run_in_shared_view (l : Url.location) (evs : list event) :
  isSharedView (st (run l evs)) = true -> run l evs = load l.
Proof.
  induction evs as [| ev evs IH] using rev_ind; [reflexivity |].
  unfold run in *. rewrite fold_left_app. cbn [fold_left].
  set (w := fold_left step evs (load l)) in *.
  intros H.
  destruct (isSharedView (st w)) eqn:Hs.
  - rewrite (IH eq_refl) in *. clear IH.
    unfold step in *. rewrite enabled_spec in *.
    destruct ev as [text | text | m | o | clip | |];
      rewrite ?Hs in *; cbn [negb andb] in *; rewrite ?andb_false_r in *;
      try reflexivity.
    + destruct (carbonEmissions (st (load l))); reflexivity.
    + destruct (mounted (st (load l))); cbn [andb] in *; [| reflexivity].
      cbn [handle] in *. rewrite perform_reset in *.
      destruct (Url.pushState (loc (load l)) (Url.pathname (loc (load l))));
        [discriminate H | reflexivity].
    + destruct (load_world l) as [_ Ht]. cbn [handle]. rewrite Ht.
      cbn. rewrite <- Ht. apply world_eta.
  - pose proof (step_keeps_out_of_shared_view w ev (run_timers l evs) Hs).
    congruence.
Qed.

End ViewFacts.

(** ** The properties of the specification *)

Section Claims.

Local Open Scope string_scope.

(** *** The trees-needed formula *)

(** C1. For every number [e] (in particular every non-negative one)
    [calculateTreesNeeded] returns [Math.ceil(e * 460 / 25)], which is
    [Math.ceil(e * 2 * 230 / 25)], computed in binary64 arithmetic; it
    is a function of its argument alone and returns 0 for 0, 46 for 2.5
    and 184 for 10, and 19 for 1, where the quotient is 18.4.  The
    result is the ceiling of the quotient [q = e * 460 / 25]: a quotient
    without a fractional part, a zero, an infinity or [NaN] is returned
    as it is, and for a positive quotient [m * 2^ex] with [ex < 0] the
    result is the least integer [n] with [m * 2^ex <= n]; the quotient
    is negative only when [e] is.  The result has no fractional part,
    and it is not negative when [e] is not. *)
Theorem calculateTreesNeeded_formula (e : number) :
  valid e = true ->
  calculateTreesNeeded (VNum e)
  = inr (Math_ceil (div (mul e (of_Z 460)) (of_Z 25)))
  /\ calculateTreesNeeded (VNum e)
     = inr (Math_ceil (div (mul (mul e (of_Z 2)) (of_Z 230)) (of_Z 25)))
  /\ calculateTreesNeeded (VNum (of_Z 0)) = inr (of_Z 0)
  /\ calculateTreesNeeded (VNum (of_Z2 5 (-1))) = inr (of_Z 46)
  /\ calculateTreesNeeded (VNum (of_Z 10)) = inr (of_Z 184)
  /\ calculateTreesNeeded (VNum (of_Z 1)) = inr (of_Z 19)
  /\ (let q := div (mul e (of_Z 460)) (of_Z 25) in
      match q with
      | S754_finite false m ex =>
          (0 <= ex -> calculateTreesNeeded (VNum e) = inr q)
          /\ (ex < 0 ->
              exists n : Z,
                calculateTreesNeeded (VNum e) = inr (of_Z n)
                /\ (n - 1) * 2 ^ (- ex) < Zpos m <= n * 2 ^ (- ex))
      | S754_finite true _ _ => negative e = true
      | _ => calculateTreesNeeded (VNum e) = inr q
      end)
  /\ (forall n, calculateTreesNeeded (VNum e) = inr n ->
        whole n = true /\ (negative e = false -> negative n = false)).
Proof.
  intros Hv. unfold calculateTreesNeeded, KG_CO2_PER_TREE_PER_YEAR.
  cbn [ToNumber bind]. rewrite (mul_2_230 e Hv).
  split; [reflexivity |]. split; [reflexivity |].
  do 4 (split; [vm_compute; reflexivity |]). split.
  - cbv zeta.
    destruct (div (mul e (of_Z 460)) (of_Z 25)) as [s | s | | [|] m ex] eqn:Hq;
      try reflexivity.
    { destruct (negative e) eqn:Ne; [reflexivity |].
      pose proof (div_sign _ (of_Z 25) (mul_sign e (of_Z 460) Ne eq_refl)
                    eq_refl) as H.
      rewrite Hq in H. discriminate H. }
    split.
    + intros Hex. cbn [Math_ceil].
      destruct (0 <=? ex)%Z eqn:E; [reflexivity | lia].
    + intros Hex. exists (- (- Zpos m / 2 ^ (- ex))). split.
      * now rewrite Math_ceil_positive.
      * apply ceiling_bounds. apply Z.pow_pos_nonneg; lia.
  - intros n H. injection H as <-. split.
    + apply Math_ceil_whole.
    + intros He. apply Math_ceil_sign, div_sign; [| reflexivity].
      apply mul_sign; [exact He | reflexivity].
Qed.

Lemma calculateTreesNeeded_formula_witness :
  valid (of_Z 1) = true
  /\ exists n : Z,
       calculateTreesNeeded (VNum (of_Z 1)) = inr (of_Z n)
       /\ (n - 1) * 2 ^ 48 < 5179139571476070 <= n * 2 ^ 48.
Proof.
  split; [reflexivity |].
  destruct (calculateTreesNeeded_formula (of_Z 1) eq_refl)
    as (_ & _ & _ & _ & _ & _ & H & _).
  cbv zeta in H.
  assert (E : div (mul (of_Z 1) (of_Z 460)) (of_Z 25)
              = S754_finite false 5179139571476070 (-48))
    by (vm_compute; reflexivity).
  rewrite E in H. destruct H as [_ H]. exact (H eq_refl).
Defined.

(** *** Validation *)

(** C5. A submission with an empty home postcode, work postcode or
    travel method sets the validation message and does nothing else: no
    request is sent and the loading flag is never raised. *)
Theorem empty_input_is_rejected (s : state) (o : fetch_outcome) :
  homePostcode s = "" \/ workPostcode s = "" \/ travelMethod s = "" ->
  let es := handleVisualize s o in
  es = [SetError (Some "Please fill in all fields")]
  /\ existsb is_fetch es = false
  /\ existsb enters_loading es = false
  /\ error (after s es) = Some "Please fill in all fields"
  /\ isLoading (after s es) = isLoading s.
Proof.
  intros H es. assert (Hes : es = [SetError (Some "Please fill in all fields")]).
  { apply handleVisualize_unfilled. unfold filled.
    destruct H as [H | [H | H]]; rewrite H; cbn;
      rewrite ?andb_false_r; reflexivity. }
  rewrite Hes. repeat split.
Qed.

Lemma empty_input_is_rejected_witness :
  existsb is_fetch
    (handleVisualize (after initial_state [SetHomePostcode "SW1A 1AA"])
       (FetchRejected NotAnError)) = false.
Proof.
  apply (empty_input_is_rejected
           (after initial_state [SetHomePostcode "SW1A 1AA"])
           (FetchRejected NotAnError)).
  right; left; reflexivity.
Defined.

(** *** The shareable link *)

(** C7.  The link is independent of the postcodes, but its query part
    is not always the parameters: on a page whose address has a fragment
    the parameters are appended after the fragment.  The link made at
    [https://example.org/commute#calculator] has an empty query part, a
    URL parser reads no parameter from it, and the page it opens is not
    in shared view. *)
Theorem fragment_swallows_link_query :
  let s := after filled_in
             (handleVisualize filled_in
                (FetchResponse true (JsonData (PayloadWith (VNum (of_Z 5)))))) in
  let link :=
    "https://example.org/commute#calculator?trees=92&emissions=5&method=Bike" in
  generateShareableLink s (with_fragment (page "") "calculator") = inr link
  /\ generateShareableLink (with_postcodes s "N1 9GU" "E1 6AN")
       (with_fragment (page "") "calculator") = inr link
  /\ Url.query_of link = ""
  /\ Url.parse (String "?" (Url.query_of link)) = []
  /\ Url.href (with_fragment (page "")
                 "calculator?trees=92&emissions=5&method=Bike") = link
  /\ isSharedView
       (st (load (with_fragment (page "")
                    "calculator?trees=92&emissions=5&method=Bike"))) = false.
Proof. vm_compute. repeat split. Qed.

(** *** The stored trees count *)

(** C2, as the code has it.  In a session that was not opened from a
    shared link the stored trees count is always what the formula gives
    for the stored estimate; a successful call establishes this in any
    session.  A state decoded from a shared link holds the two numbers
    of the link, [parseInt(trees, 10)] and [parseFloat(emissions)], and
    keeps them for as long as the shared view lasts: there the formula
    holds exactly when the link's [trees] is what the formula gives for
    the link's [emissions].  It does for a link that the component made
    from a state in which the formula holds, when the two numbers are
    read back from their texts as they were. *)
Theorem trees_formula_invariant (l : Url.location) (evs : list event) :
  let s := st (run l evs) in
  (mount_effect l = [] -> formula_holds s)
  /\ (formula_holds s
      \/ exists trees emissions,
           Url.get (Url.parse (Url.search l)) "trees" = Some trees
           /\ Url.get (Url.parse (Url.search l)) "emissions" = Some emissions
           /\ treesNeeded s = parseInt10 trees
           /\ carbonEmissions s = VNum (parseFloat emissions))
  /\ (forall s0 v n, filled s0 = true -> calculateTreesNeeded v = inr n ->
        let s1 := after s0 (handleVisualize s0
                              (FetchResponse true (JsonData (PayloadWith v)))) in
        carbonEmissions s1 = v /\ treesNeeded s1 = n)
  /\ (forall trees emissions,
        Url.get (Url.parse (Url.search l)) "trees" = Some trees ->
        trees <> "" ->
        Url.get (Url.parse (Url.search l)) "emissions" = Some emissions ->
        emissions <> "" ->
        let s0 := st (load l) in
        isSharedView s0 = true
        /\ treesNeeded s0 = parseInt10 trees
        /\ carbonEmissions s0 = VNum (parseFloat emissions)
        /\ (formula_holds s0
            <-> calculateTreesNeeded (VNum (parseFloat emissions))
                = inr (parseInt10 trees))
        /\ (isSharedView s = true -> s = s0))
  /\ (forall (s0 : state) (l0 : Url.location) (x : number),
        carbonEmissions s0 = VNum x -> Url.hash l0 = "" ->
        formula_holds s0 ->
        parseInt10 (Number_toString (treesNeeded s0)) = treesNeeded s0 ->
        parseFloat (Number_toString x) = x ->
        exists query,
          generateShareableLink s0 l0 = inr (Url.href (opened l0 query))
          /\ formula_holds (st (load (opened l0 query)))).
Proof.
  intros s. subst s. unfold run at 1 2 3, formula_holds at 1 2.
  split; [| split; [| split; [| split]]].
  - intros Hm.
    apply (steps_preserve
             (fun v n => forall n', calculateTreesNeeded v = inr n' -> n = n'));
      [congruence | congruence | apply load_timers |].
    unfold load. rewrite Hm. apply initial_formula.
  - set (P := fun (v : value) (n : number) =>
                (forall n', calculateTreesNeeded v = inr n' -> n = n')
                \/ exists trees emissions,
                     Url.get (Url.parse (Url.search l)) "trees" = Some trees
                     /\ Url.get (Url.parse (Url.search l)) "emissions"
                        = Some emissions
                     /\ n = parseInt10 trees
                     /\ v = VNum (parseFloat emissions)).
    apply (steps_preserve P);
      [left; congruence | left; congruence | apply load_timers |].
    unfold P, load. rewrite st_perform_all.
    destruct (mount_effect_cases l)
      as [[-> _] | (t & e & tail & Ht & _ & He & _ & -> & Htail)].
    + left. apply initial_formula.
    + right. exists t, e. destruct Htail as [-> | [m ->]]; repeat split; auto.
  - intros s0 v n F E.
    destruct (handleVisualize_success s0 v n F E) as (H1 & H2 & _).
    now split.
  - intros trees emissions Ht Hnt He Hne. set (s0 := st (load l)).
    assert (H : isSharedView s0 = true
                /\ treesNeeded s0 = parseInt10 trees
                /\ carbonEmissions s0 = VNum (parseFloat emissions)).
    { subst s0. unfold load. rewrite st_perform_all.
      destruct (mount_effect_cases l)
        as [[_ Hno] | (t & e & tail & Ht' & _ & He' & _ & -> & Htail)].
      - exfalso. apply Hno. now exists trees, emissions.
      - rewrite Ht in Ht'. rewrite He in He'.
        injection Ht' as <-. injection He' as <-.
        destruct Htail as [-> | [m ->]]; repeat split. }
    destruct H as (Hs & Hn & Hc). repeat split; try assumption.
    + intros F. unfold formula_holds in F. rewrite Hc in F.
      rewrite <- Hn. unfold calculateTreesNeeded in *. cbn [ToNumber bind] in *.
      f_equal. symmetry. apply F. reflexivity.
    + intros E n H. rewrite Hc, E in H. injection H as <-. exact Hn.
    + intros H. subst s0. now rewrite (run_in_shared_view l evs H).
  - intros s0 l0 x Hx Hh F Rt Re.
    destruct (generated_link_loads s0 l0 x Hx Hh) as [Hl Hs].
    cbv zeta in Hl, Hs. eexists. split; [exact Hl |].
    rewrite Hs. clear Hl Hs.
    assert (Hc : forall es,
               carbonEmissions
                 (after initial_state
                    ([SetTreesNeeded
                        (parseInt10 (Number_toString (treesNeeded s0)));
                      SetCarbonEmissions (VNum (parseFloat (Number_toString x)));
                      SetIsSharedView true]
                     ++ if Str.truthy (travelMethod s0)
                        then [SetTravelMethod es] else [])%list) = VNum x).
    { intros es. destruct (Str.truthy (travelMethod s0));
        exact (f_equal VNum Re). }
    assert (Hn : forall es,
               treesNeeded
                 (after initial_state
                    ([SetTreesNeeded
                        (parseInt10 (Number_toString (treesNeeded s0)));
                      SetCarbonEmissions (VNum (parseFloat (Number_toString x)));
                      SetIsSharedView true]
                     ++ if Str.truthy (travelMethod s0)
                        then [SetTravelMethod es] else [])%list)
               = treesNeeded s0).
    { intros es. destruct (Str.truthy (travelMethod s0)); exact Rt. }
    intros n H. rewrite Hc in H. rewrite Hn. apply F. now rewrite Hx.
Qed.

Lemma trees_formula_invariant_witness :
  formula_holds
    (st (run (page "")
           [ChangeHome "SW1A 1AA"; ChangeWork "EC2A 1NT"; ChangeMethod Bike;
            ClickVisualize
              (FetchResponse true (JsonData (PayloadWith (VNum (of_Z 5)))))]))
  /\ (exists query,
        generateShareableLink
          (after filled_in
             (handleVisualize filled_in
                (FetchResponse true (JsonData (PayloadWith (VNum (of_Z 5)))))))
          (page "")
        = inr (Url.href (opened (page "") query))
        /\ formula_holds (st (load (opened (page "") query))))
  /\ treesNeeded (st (load (page "?trees=7&emissions=5"))) = parseInt10 "7"
  /\ carbonEmissions (st (load (page "?trees=7&emissions=5")))
     = VNum (parseFloat "5").
Proof.
  destruct (trees_formula_invariant (page "")
              [ChangeHome "SW1A 1AA"; ChangeWork "EC2A 1NT"; ChangeMethod Bike;
               ClickVisualize
                 (FetchResponse true (JsonData (PayloadWith (VNum (of_Z 5)))))])
    as (H1 & _ & _ & _ & H5).
  destruct (trees_formula_invariant (page "?trees=7&emissions=5") [])
    as (_ & _ & _ & H4 & _).
  split; [apply H1; reflexivity |]. split.
  - apply (H5 _ (page "") (of_Z 5)); try reflexivity.
    intros n H. vm_compute in H. injection H as <-. reflexivity.
  - destruct (H4 "7" "5" eq_refl ltac:(discriminate) eq_refl
                ltac:(discriminate)) as (_ & Hn & Hc & _).
    split; [exact Hn | exact Hc].
Defined.

(** C2 as stated fails: the link [?trees=1&emissions=5] is decoded to an
    estimate of 5 with 1 tree, where the formula gives 92. *)
Lemma shared_link_breaks_formula :
  let s := st (load (page "?trees=1&emissions=5")) in
  carbonEmissions s = VNum (of_Z 5)
  /\ treesNeeded s = of_Z 1
  /\ calculateTreesNeeded (carbonEmissions s) = inr (of_Z 92)
  /\ ~ formula_holds s.
Proof.
  repeat split. intros H. specialize (H (of_Z 92) eq_refl). discriminate H.
Qed.

(** The two numbers of a link are not always read back as they were:
    for an estimate of [1e20] the trees count is printed in exponent
    notation, of which [Number.parseInt] reads the first digit only. *)
Example huge_count_is_not_read_back :
  exists trees,
    calculateTreesNeeded (VNum (of_Z (10 ^ 20))) = inr trees
    /\ Number_toString trees = "1.8400000000000003e+21"
    /\ parseInt10 (Number_toString trees) = of_Z 1.
Proof. eexists. split; [reflexivity |]. split; vm_compute; reflexivity. Qed.

(** *** Failed estimations *)

(** C3, as the code has it.  When the call fails before a payload is
    used (the request is rejected, the response is not 2xx, its body is
    not JSON, or the payload is [null]) the handler stores the message of
    the failure and lowers the loading flag; the view mode, the estimate
    and the trees count are left as they were before the attempt. *)
Theorem failed_estimation_keeps_estimate (s : state) (o : fetch_outcome) :
  filled s = true -> fails_early o = true ->
  let s' := after s (handleVisualize s o) in
  (exists err, failure o = Some err /\ error s' = Some (catch_message err))
  /\ isLoading s' = false
  /\ isSharedView s' = isSharedView s
  /\ carbonEmissions s' = carbonEmissions s
  /\ treesNeeded s' = treesNeeded s
  /\ (forall body, o = FetchResponse false body ->
        error s' = Some "Failed to calculate carbon emissions")
  /\ (o = FetchRejected NotAnError -> error s' = Some "An error occurred").
Proof.
  intros F Early s'.
  assert (Hf : exists err, failure o = Some err).
  { destruct o as [e | [|] [e | [| v]]]; try discriminate; eexists; reflexivity. }
  destruct Hf as [err Hf].
  destruct (handleVisualize_failure s o err F Hf)
    as (H1 & H2 & H3 & H4 & H5 & _).
  fold s' in H1, H2, H3, H4, H5.
  repeat split; auto.
  - now exists err.
  - intros body ->. rewrite H1. injection Hf as <-. reflexivity.
  - intros ->. rewrite H1. injection Hf as <-. reflexivity.
Qed.

Lemma failed_estimation_keeps_estimate_witness :
  error (after filled_in
           (handleVisualize filled_in
              (FetchResponse false (JsonRejected NotAnError))))
  = Some "Failed to calculate carbon emissions".
Proof.
  assert (F : filled filled_in = true) by reflexivity.
  assert (E : fails_early (FetchResponse false (JsonRejected NotAnError)) = true)
    by reflexivity.
  destruct (failed_estimation_keeps_estimate filled_in
              (FetchResponse false (JsonRejected NotAnError)) F E)
    as (_ & _ & _ & _ & _ & H & _).
  exact (H (JsonRejected NotAnError) eq_refl).
Defined.

(** C3 as stated fails twice.  A failure after a success leaves the
    earlier estimate and trees count in the state.  And a 2xx response
    whose payload lacks the [emissions_kgCO2e] field is not treated as a
    failure: no message is set, and [undefined] and [NaN] are stored. *)
Lemma failure_after_success_keeps_result :
  let s1 := after filled_in
              (handleVisualize filled_in
                 (FetchResponse true (JsonData (PayloadWith (VNum (of_Z 5)))))) in
  let s2 := after s1
              (handleVisualize s1 (FetchRejected (ErrorObject "TypeError"
                                                    "Failed to fetch"))) in
  let s3 := after filled_in
              (handleVisualize filled_in
                 (FetchResponse true (JsonData (PayloadWith VUndefined)))) in
  (error s2 = Some "Failed to fetch"
   /\ carbonEmissions s2 = VNum (of_Z 5)
   /\ treesNeeded s2 = of_Z 92)
  /\ (error s3 = None
      /\ carbonEmissions s3 = VUndefined
      /\ treesNeeded s3 = NaN).
Proof. repeat split. Qed.

(** *** Decoding a shared link *)

(** C4, as the code has it.  The component enters the shared view
    exactly when the address carries a [trees] and an [emissions]
    parameter that are both non-empty; whether they parse as numbers is
    not examined. *)
Theorem shared_view_iff_params_nonempty (l : Url.location) :
  isSharedView (st (load l)) = true
  <-> exists trees emissions,
        Url.get (Url.parse (Url.search l)) "trees" = Some trees
        /\ trees <> ""
        /\ Url.get (Url.parse (Url.search l)) "emissions" = Some emissions
        /\ emissions <> "".
Proof.
  unfold load. rewrite st_perform_all.
  destruct (mount_effect_cases l)
    as [[-> Hno] | (t & e & tail & Ht & Hnt & He & Hne & -> & Htail)].
  - split; [discriminate | intros H; contradiction].
  - split; [intros _; now exists t, e |].
    intros _. destruct Htail as [-> | [m ->]]; reflexivity.
Qed.

Lemma shared_view_iff_params_nonempty_witness :
  isSharedView (st (load (page "?trees=92&emissions=5.0&method=Bike"))) = true.
Proof.
  apply (shared_view_iff_params_nonempty
           (page "?trees=92&emissions=5.0&method=Bike")).
  exists "92", "5.0". repeat split; discriminate.
Defined.

(** C4 as stated fails: [trees=abc] and [trees=-5] do not parse as
    non-negative integers, and the shared view is entered all the same,
    with a trees count of [NaN] and of -5. *)
Lemma unparseable_trees_enter_shared_view :
  parseInt10 "abc" = NaN
  /\ isSharedView (st (load (page "?trees=abc&emissions=5"))) = true
  /\ treesNeeded (st (load (page "?trees=abc&emissions=5"))) = NaN
  /\ isSharedView (st (load (page "?trees=-5&emissions=5"))) = true
  /\ treesNeeded (st (load (page "?trees=-5&emissions=5"))) = of_Z (-5).
Proof. repeat split. Qed.

(** *** Leaving the shared view *)

(** C6, as the code has it.  The reset button of the shared view, on a
    page whose path the browser accepts for [pushState] (one that does
    not begin with [//]), replaces the address by its path, so that a
    reload starts from the initial state, and lowers the shared-view
    flag; the estimate, the trees count and the travel method of the
    link stay in the state. *)
Theorem reset_clears_link_only (w : world) :
  enabled (st w) ClickReset = true ->
  String.prefix "//" (Url.pathname (loc w)) = false ->
  let w' := step w ClickReset in
  Url.search (loc w') = "" /\ Url.hash (loc w') = ""
  /\ Url.pathname (loc w') = Url.pathname (loc w)
  /\ isSharedView (st w') = false
  /\ st (load (loc w')) = initial_state
  /\ carbonEmissions (st w') = carbonEmissions (st w)
  /\ treesNeeded (st w') = treesNeeded (st w)
  /\ travelMethod (st w') = travelMethod (st w).
Proof.
  intros He Hp w'. subst w'. unfold step. rewrite He.
  cbn [handle]. rewrite perform_reset. unfold Url.pushState. rewrite Hp.
  repeat split.
Qed.

Lemma reset_clears_link_only_witness :
  st (load (loc (step (load (page "?trees=92&emissions=5.0&method=Bike"))
                   ClickReset)))
  = initial_state.
Proof.
  apply (reset_clears_link_only
           (load (page "?trees=92&emissions=5.0&method=Bike")));
    reflexivity.
Defined.

(** C6 as stated fails: after the reset of the view opened from
    [?trees=92&emissions=5.0&method=Bike] the state still holds the
    estimate 5, the 92 trees and the method of the link, and the result
    is still on the page. *)
Lemma reset_keeps_shared_estimate :
  let w := step (load (page "?trees=92&emissions=5.0&method=Bike"))
             ClickReset in
  isSharedView (st w) = false
  /\ carbonEmissions (st w) = VNum (of_Z 5)
  /\ treesNeeded (st w) = of_Z 92
  /\ travelMethod (st w) = "Bike"
  /\ present (carbonEmissions (st w)) = true.
Proof. repeat split. Qed.

(** *** Decoding and encoding again *)

(** C8, as the code has it.  Decoding a link and encoding the state
    again gives, for [trees] and [emissions], the text of the parsed
    numbers: [Number.parseInt] and [Number.parseFloat] followed by
    [toString].  A parameter comes back unchanged when it is already
    the text of the number it denotes. *)
Theorem reencoding_is_canonical (l : Url.location) (trees emissions : string) :
  Url.get (Url.parse (Url.search l)) "trees" = Some trees ->
  trees <> "" ->
  Url.get (Url.parse (Url.search l)) "emissions" = Some emissions ->
  emissions <> "" ->
  exists params,
    share_params (st (load l)) = inr params
    /\ Url.get params "trees" = Some (Number_toString (parseInt10 trees))
    /\ Url.get params "emissions"
       = Some (Number_toString (parseFloat emissions))
    /\ (Number_toString (parseInt10 trees) = trees ->
        Url.get params "trees" = Some trees)
    /\ (Number_toString (parseFloat emissions) = emissions ->
        Url.get params "emissions" = Some emissions).
Proof.
  intros Ht Hnt He Hne. unfold load. rewrite st_perform_all.
  destruct (mount_effect_cases l)
    as [[_ Hno] | (t & e & tail & Ht' & _ & He' & _ & -> & Htail)].
  - exfalso. apply Hno. now exists trees, emissions.
  - rewrite Ht in Ht'. rewrite He in He'.
    injection Ht' as <-. injection He' as <-.
    unfold share_params.
    destruct Htail as [-> | [m ->]];
      cbn [after fold_left set_state app treesNeeded carbonEmissions
           travelMethod value_toString bind].
    + eexists. split; [reflexivity |].
      repeat split; try reflexivity; intros ->; reflexivity.
    + destruct (Str.truthy m); eexists; (split; [reflexivity |]);
        repeat split; try reflexivity; intros ->; reflexivity.
Qed.

Lemma reencoding_is_canonical_witness :
  exists params,
    share_params (st (load (page "?trees=46&emissions=2.5"))) = inr params
    /\ Url.get params "trees" = Some "46"
    /\ Url.get params "emissions" = Some "2.5".
Proof.
  destruct (reencoding_is_canonical (page "?trees=46&emissions=2.5")
              "46" "2.5") as (params & Hp & _ & _ & Ht & He);
    try reflexivity; try discriminate.
  exists params. repeat split;
    [exact Hp | apply Ht; reflexivity | apply He; reflexivity].
Defined.

(** C8 as stated fails on its own example: [emissions=2.50] is decoded
    to 2.5 and encoded again as [2.5]. *)
Lemma reencoding_rewrites_emissions :
  let l := page "?trees=46&emissions=2.50" in
  Url.get (Url.parse (Url.search l)) "emissions" = Some "2.50"
  /\ share_params (st (load l)) = inr [("trees", "46"); ("emissions", "2.5")]
  /\ generateShareableLink (st (load l)) l
     = inr "https://example.org/commute?trees=46&emissions=2.5"
  /\ "2.5" <> "2.50".
Proof. repeat split. discriminate. Qed.

(** *** The request *)

(** C9 fails on the code.  [replace(' ', '')] removes the first space
    only: the postcode [sw1a  1aa], with two spaces, is sent as
    [SW1A 1AA].  Upper and lower case are mapped as the claim says. *)
Theorem second_space_is_transmitted (o : fetch_outcome) :
  let s := after initial_state
             [SetHomePostcode "sw1a  1aa"; SetWorkPostcode "ec2a 1nt";
              SetTravelMethod "Train"] in
  nth_error (handleVisualize s o) 2
  = Some (Fetch endpoint (visualize_request s))
  /\ body_origin (req_body (visualize_request s)) = "SW1A 1AA"
  /\ Str.contains " " (body_origin (req_body (visualize_request s))) = true
  /\ body_destination (req_body (visualize_request s)) = "EC2A1NT"
  /\ body_mode (req_body (visualize_request s)) = "train".
Proof. repeat split. Qed.

(** *** Rendering a result *)

(** C10, as the code has it.  Neither [handleRequestInfo] nor
    [handleEmailChange] is bound in the module.  Unless the page defines
    [handleRequestInfo] globally, a render with a number in
    [carbonEmissions] raises a [ReferenceError] for it; with
    [undefined] or a value that is not a number there, the render fails
    before that, with the [TypeError] of [carbonEmissions.toFixed];
    without an estimate the render completes and shows no result. *)
Theorem result_render_throws (globals : list string) (s : state) :
  existsb (String.eqb "handleRequestInfo") globals = false ->
  existsb (String.eqb "handleRequestInfo") declared = false
  /\ existsb (String.eqb "handleEmailChange") declared = false
  /\ match carbonEmissions s with
     | VNum _ =>
         render globals s
         = inl (ErrorObject "ReferenceError"
                  "handleRequestInfo is not defined")
     | VUndefined =>
         render globals s
         = inl (ErrorObject "TypeError"
                  "Cannot read properties of undefined (reading 'toFixed')")
     | VOther _ _ =>
         render globals s
         = inl (ErrorObject "TypeError"
                  "carbonEmissions.toFixed is not a function")
     | VNull =>
         exists v, render globals s = inr v /\ shows_result v = false
     end.
Proof.
  intros Hg. split; [reflexivity | split; [reflexivity |]].
  unfold render.
  destruct (carbonEmissions s) as [| | x | n t];
    destruct (isSharedView s);
    cbn; rewrite ?(resolve_unbound globals "handleRequestInfo") by
      (reflexivity || assumption);
    try reflexivity; eexists; split; reflexivity.
Qed.

Lemma result_render_throws_witness :
  render []
    (after filled_in
       (handleVisualize filled_in
          (FetchResponse true (JsonData (PayloadWith (VNum (of_Z 5)))))))
  = inl (ErrorObject "ReferenceError" "handleRequestInfo is not defined").
Proof.
  apply (result_render_throws []
           (after filled_in
              (handleVisualize filled_in
                 (FetchResponse true (JsonData (PayloadWith (VNum (of_Z 5)))))))).
  reflexivity.
Defined.

(** C10 as stated fails for an estimate that is not [null] but
    [undefined], as stored from a 2xx response without the
    [emissions_kgCO2e] field: the exception of the render is a
    [TypeError]. *)
Lemma undefined_estimate_raises_type_error :
  let s := after filled_in
             (handleVisualize filled_in
                (FetchResponse true (JsonData (PayloadWith VUndefined)))) in
  carbonEmissions s = VUndefined
  /\ present (carbonEmissions s) = true
  /\ render [] s
     = inl (ErrorObject "TypeError"
              "Cannot read properties of undefined (reading 'toFixed')").
Proof. repeat split. Qed.

End Claims.

(** ** Further properties of the component *)

Section SharedLinks.

Local Open Scope string_scope.
Local Open Scope Z_scope.

(** X1. A link made from a numeric estimate, on a page whose address has
    no fragment, opens the shared view: the address of the link is the
    page with the serialized parameters as its query, and the component
    mounted there is in shared view with the travel method of the
    sender, the trees count and the estimate read back from their
    texts, and empty postcode fields. *)
Theorem shared_link_opens_shared_view
  (s : state) (l : Url.location) (x : number) :
  carbonEmissions s = VNum x -> Url.hash l = "" ->
  exists query,
    generateShareableLink s l = inr (Url.href (opened l query))
    /\ let s' := st (load (opened l query)) in
       isSharedView s' = true
       /\ travelMethod s' = travelMethod s
       /\ treesNeeded s' = parseInt10 (Number_toString (treesNeeded s))
       /\ carbonEmissions s' = VNum (parseFloat (Number_toString x))
       /\ homePostcode s' = "" /\ workPostcode s' = "".
Proof.
  intros Hx Hh.
  set (params := ([("trees", Number_toString (treesNeeded s));
                   ("emissions", Number_toString x)]
                  ++ if Str.truthy (travelMethod s)
                     then [("method", travelMethod s)] else [])%list).
  exists (Url.toString params). split.
  - unfold generateShareableLink, share_params. rewrite Hx.
    cbn [value_toString bind].
    unfold Url.href_without_search, Url.href, opened.
    cbn [Url.origin Url.pathname Url.search Url.hash].
    rewrite Hh, !append_nil_r, append_assoc. subst params.
    destruct (Str.truthy (travelMethod s)); reflexivity.
  - unfold load. rewrite st_perform_all. unfold mount_effect, opened.
    cbn [Url.search]. rewrite parse_toString. subst params.
    cbn [app Url.get String.eqb Ascii.eqb Bool.eqb].
    pose proof (Number_toString_nonempty (treesNeeded s)) as Ht.
    pose proof (Number_toString_nonempty x) as He.
    apply truthy_true in Ht, He. rewrite Ht, He. cbn [andb].
    destruct (Str.truthy (travelMethod s)) eqn:Tm.
    + cbn [Url.get String.eqb Ascii.eqb Bool.eqb]. rewrite Tm.
      repeat split.
    + cbn [Url.get String.eqb Ascii.eqb Bool.eqb].
      apply truthy_false in Tm. rewrite Tm. repeat split.
Qed.

Lemma shared_link_opens_shared_view_witness :
  exists query,
    generateShareableLink
      (after filled_in
         (handleVisualize filled_in
            (FetchResponse true (JsonData (PayloadWith (VNum (of_Z 5)))))))
      (page "")
    = inr (Url.href (opened (page "") query)).
Proof.
  destruct (shared_link_opens_shared_view
              (after filled_in
                 (handleVisualize filled_in
                    (FetchResponse true
                       (JsonData (PayloadWith (VNum (of_Z 5)))))))
              (page "") (of_Z 5)) as (query & H & _);
    [reflexivity | reflexivity |].
  exists query. exact H.
Defined.

(** X16. The link does not depend on the postcodes:
    two states that differ in their postcodes only give the same link.
    When the estimate is a number the link is the address without its
    query, followed by [?] and the parameters [trees], [emissions] and,
    when a travel method is set, [method], in this order.  When the
    address has no fragment, this is the query of the link: a URL parser
    reads exactly these parameters from it, in this order.  The origin
    and the path of an address contain neither [?] nor [#]. *)
Theorem link_ignores_postcodes
  (s : state) (l : Url.location) (home work home' work' : string) :
  generateShareableLink (with_postcodes s home work) l
  = generateShareableLink (with_postcodes s home' work') l
  /\ match carbonEmissions s with
     | VNum x =>
         generateShareableLink (with_postcodes s home work) l
         = inr (Url.href_without_search l ++ "?"
                ++ Url.toString
                     ([("trees", Number_toString (treesNeeded s));
                       ("emissions", Number_toString x)]
                      ++ if Str.truthy (travelMethod s)
                         then [("method", travelMethod s)] else [])%list)
     | VNull => generateShareableLink (with_postcodes s home work) l = inr ""
     | _ => True
     end
  /\ (forall x,
        carbonEmissions s = VNum x ->
        Url.hash l = "" ->
        Url.no_delimiter (Url.origin l ++ Url.pathname l) = true ->
        exists link,
          generateShareableLink (with_postcodes s home work) l = inr link
          /\ Url.parse (String "?" (Url.query_of link))
             = ([("trees", Number_toString (treesNeeded s));
                 ("emissions", Number_toString x)]
                ++ if Str.truthy (travelMethod s)
                   then [("method", travelMethod s)] else [])%list).
Proof.
  split; [reflexivity |].
  assert (H : match carbonEmissions s with
     | VNum x =>
         generateShareableLink (with_postcodes s home work) l
         = inr (Url.href_without_search l ++ "?"
                ++ Url.toString
                     ([("trees", Number_toString (treesNeeded s));
                       ("emissions", Number_toString x)]
                      ++ if Str.truthy (travelMethod s)
                         then [("method", travelMethod s)] else [])%list)
     | VNull => generateShareableLink (with_postcodes s home work) l = inr ""
     | _ => True
     end).
  { unfold generateShareableLink, share_params, with_postcodes.
    cbn [set_state carbonEmissions treesNeeded travelMethod].
    destruct (carbonEmissions s) as [| | x | n t]; cbn [value_toString bind];
      try exact I; [reflexivity |].
    destruct (Str.truthy (travelMethod s)); reflexivity. }
  split; [exact H |].
  intros x Hx Hh Hd. rewrite Hx in H. eexists. split; [exact H |].
  unfold Url.href_without_search. rewrite Hh, append_nil_r.
  rewrite query_of_link by (assumption || apply toString_no_hash).
  apply parse_toString.
Qed.

Lemma link_ignores_postcodes_witness :
  exists link,
    generateShareableLink
      (with_postcodes
         (after filled_in
            (handleVisualize filled_in
               (FetchResponse true (JsonData (PayloadWith (VNum (of_Z 5)))))))
         "N1 9GU" "E1 6AN")
      (page "")
    = inr link
    /\ Url.parse (String "?" (Url.query_of link))
       = [("trees", "92"); ("emissions", "5"); ("method", "Bike")].
Proof.
  destruct (link_ignores_postcodes
              (after filled_in
                 (handleVisualize filled_in
                    (FetchResponse true
                       (JsonData (PayloadWith (VNum (of_Z 5)))))))
              (page "") "N1 9GU" "E1 6AN" "" "") as (_ & _ & H).
  destruct (H (of_Z 5) eq_refl eq_refl eq_refl) as (link & H1 & H2).
  exists link. split; [exact H1 |]. rewrite H2. vm_compute. reflexivity.
Defined.

End SharedLinks.

Section Sharing.

Local Open Scope string_scope.

Lemma link_ignores_tooltip (s : state) (l : Url.location) (a : string) (b : bool) :
  generateShareableLink
    (set_state (set_state s (SetShareTooltip a)) (SetShowTooltip b)) l
  = generateShareableLink s l.
Proof. reflexivity. Qed.

Lemma copy_step (w : world) (link : string) :
  enabled (st w) (ClickShare None) = true ->
  generateShareableLink (st w) (loc w) = inr link ->
  step w (ClickShare None)
  = {| st := after (st w) [SetShareTooltip "Copied!"; SetShowTooltip true];
       loc := loc w;
       timers := timers w ++ [tooltip_reset] |}.
Proof.
  intros He Hl. unfold step. rewrite He. cbn [handle].
  unfold handleShare. rewrite Hl. reflexivity.
Qed.

(** The share button is on the page of a numeric estimate, outside the
    shared view. *)
Lemma share_enabled (s : state) (clip : option thrown) :
  enabled s (ClickShare clip) = true ->
  (exists x, carbonEmissions s = VNum x)
  /\ isSharedView s = false /\ mounted s = true.
Proof.
  rewrite enabled_spec, mounted_spec.
  destruct (carbonEmissions s) as [| | x | n t]; try discriminate.
  intros H. apply negb_true_iff in H. repeat split; [now exists x | exact H].
Qed.

Lemma mounted_tooltip (s : state) (a : string) (b : bool) :
  mounted (after s [SetShareTooltip a; SetShowTooltip b]) = mounted s.
Proof. now rewrite !mounted_spec. Qed.

(** X2. A successful copy writes the link to the clipboard, shows
    [Copied!] and sets one timer of two seconds; when that timer fires
    the tooltip is back at rest.  Nothing else in the state, and nothing
    in the address, has changed. *)
Theorem copy_is_acknowledged_then_reverted (w : world) (link : string) :
  enabled (st w) (ClickShare None) = true ->
  generateShareableLink (st w) (loc w) = inr link ->
  timers w = [] ->
  handleShare (st w) (loc w) None
  = [ ClipboardWrite link; SetShareTooltip "Copied!"; SetShowTooltip true;
      SetTimeout tooltip_reset 2000 ]
  /\ let w1 := step w (ClickShare None) in
     st w1 = after (st w) [SetShareTooltip "Copied!"; SetShowTooltip true]
     /\ timers w1 = [tooltip_reset] /\ loc w1 = loc w
     /\ let w2 := step w1 TimerFires in
        st w2 = tooltip_at_rest (st w) /\ timers w2 = [] /\ loc w2 = loc w.
Proof.
  intros He Hl Ht. destruct w as [s l t]. cbn [st loc timers] in *. subst t.
  assert (Hh : handleShare s l None
               = [ ClipboardWrite link; SetShareTooltip "Copied!";
                   SetShowTooltip true; SetTimeout tooltip_reset 2000 ]).
  { unfold handleShare. rewrite Hl. reflexivity. }
  split; [exact Hh |].
  destruct (share_enabled s None He) as (_ & _ & Hm).
  cbv zeta.
  rewrite (copy_step {| st := s; loc := l; timers := [] |} link He Hl).
  cbn [st loc timers app].
  do 3 (split; [reflexivity |]).
  unfold step. cbn [enabled handle st loc timers tl].
  rewrite mounted_tooltip, Hm. repeat split.
Qed.

Lemma copy_is_acknowledged_then_reverted_witness :
  let w := run (page "")
             [ChangeHome "SW1A 1AA"; ChangeWork "EC2A 1NT"; ChangeMethod Bike;
              ClickVisualize
                (FetchResponse true (JsonData (PayloadWith (VNum (of_Z 5)))))] in
  handleShare (st w) (loc w) None
  = [ ClipboardWrite "https://example.org/commute?trees=92&emissions=5&method=Bike";
      SetShareTooltip "Copied!"; SetShowTooltip true;
      SetTimeout tooltip_reset 2000 ].
Proof.
  intros w.
  apply (copy_is_acknowledged_then_reverted w
           "https://example.org/commute?trees=92&emissions=5&method=Bike");
    reflexivity.
Defined.

(** X3. A copy that the clipboard refuses changes nothing: the state,
    the address and the pending timers are as before, and the only trace
    is the error written to the console. *)
Theorem refused_copy_is_silent (w : world) (err : thrown) :
  step w (ClickShare (Some err)) = w
  /\ forall link,
       generateShareableLink (st w) (loc w) = inr link ->
       handleShare (st w) (loc w) (Some err)
       = [ClipboardWrite link; ConsoleError "Failed to copy link: " err].
Proof.
  split.
  - unfold step. destruct (enabled (st w) (ClickShare (Some err)));
      [| reflexivity].
    cbn [handle]. unfold handleShare.
    destruct (generateShareableLink (st w) (loc w)); now destruct w.
  - intros link H. unfold handleShare. now rewrite H.
Qed.

(** X4. Timers are not restarted.  After two successful copies the
    timer of the first one still fires first: it puts the tooltip at
    rest while the timer of the second copy is pending. *)
Theorem second_copy_does_not_restart_the_timer (w : world) (link : string) :
  enabled (st w) (ClickShare None) = true ->
  generateShareableLink (st w) (loc w) = inr link ->
  timers w = [] ->
  let w2 := fold_left step [ClickShare None; ClickShare None] w in
  let w3 := step w2 TimerFires in
  (showTooltip (st w2) = true /\ timers w2 = [tooltip_reset; tooltip_reset])
  /\ st w3 = tooltip_at_rest (st w)
  /\ timers w3 = [tooltip_reset].
Proof.
  intros He Hl Ht w2 w3. subst w3 w2. cbn [fold_left].
  rewrite (copy_step w link He Hl).
  rewrite (copy_step _ link); [| exact He | exact Hl].
  destruct (share_enabled (st w) None He) as (_ & _ & Hm).
  cbn [timers st]. rewrite Ht. unfold step.
  cbn [enabled handle st loc timers app tl].
  rewrite !mounted_tooltip, Hm. repeat split.
Qed.

Lemma second_copy_does_not_restart_the_timer_witness :
  let w := run (page "")
             [ChangeHome "SW1A 1AA"; ChangeWork "EC2A 1NT"; ChangeMethod Bike;
              ClickVisualize
                (FetchResponse true (JsonData (PayloadWith (VNum (of_Z 5)))))] in
  timers (step (fold_left step [ClickShare None; ClickShare None] w) TimerFires)
  = [tooltip_reset].
Proof.
  intros w.
  apply (second_copy_does_not_restart_the_timer w
           "https://example.org/commute?trees=92&emissions=5&method=Bike");
    reflexivity.
Defined.

End Sharing.

Section Submitting.

Local Open Scope string_scope.

Lemma visualize_try_sends_nothing (o : fetch_outcome) :
  requests (fst (visualize_try o)) = [].
Proof.
  destruct o as [e | [|] [e | [| v]]]; try reflexivity.
  cbn. destruct (calculateTreesNeeded v); reflexivity.
Qed.

(** X5. A submission sends a request exactly when the three inputs are
    filled in, and then exactly one, to the estimation endpoint.
    Whatever the outcome of the call, the loading flag is lowered at the
    end; a success also clears an earlier error message.  No submission
    alters what was typed or selected. *)
Theorem one_request_per_filled_submission (s : state) (o : fetch_outcome) :
  let es := handleVisualize s o in
  requests es
  = (if filled s then [Fetch endpoint (visualize_request s)] else [])
  /\ (filled s = true -> isLoading (after s es) = false)
  /\ (filled s = true -> failure o = None -> error (after s es) = None)
  /\ (homePostcode (after s es) = homePostcode s
      /\ workPostcode (after s es) = workPostcode s
      /\ travelMethod (after s es) = travelMethod s).
Proof.
  intros es. subst es. destruct (filled s) eqn:F.
  - rewrite handleVisualize_filled by assumption. split; [| split; [| split]].
    + unfold requests. rewrite !filter_app.
      fold (requests (fst (visualize_try o))).
      rewrite visualize_try_sends_nothing.
      destruct (failure o); reflexivity.
    + intros _. unfold after. rewrite !fold_left_app. reflexivity.
    + intros _ Hf. apply failure_none_iff in Hf as (v & n & -> & E).
      unfold failure. cbn [visualize_try read_emissions]. rewrite E.
      reflexivity.
    + unfold failure.
      destruct o as [e | [|] [e | [| v]]]; cbn [visualize_try read_emissions];
        try destruct (calculateTreesNeeded v); repeat split.
  - rewrite handleVisualize_unfilled by assumption.
    split; [reflexivity | split; [discriminate | split; [discriminate |]]].
    repeat split.
Qed.

Lemma one_request_per_filled_submission_witness :
  isLoading (after filled_in
               (handleVisualize filled_in (FetchRejected NotAnError)))
  = false.
Proof.
  apply (one_request_per_filled_submission filled_in
           (FetchRejected NotAnError)).
  reflexivity.
Defined.

Lemma contains_count (c : ascii) (s : string) :
  Str.contains c s = negb (Nat.eqb (Str.count c s) 0).
Proof.
  induction s as [| x s IH]; [reflexivity |].
  cbn [Str.contains Str.count]. destruct (c =? x)%char; [reflexivity |].
  exact IH.
Qed.

(** X6. A postcode typed with at most one space is sent without any
    space, and in upper case; this holds for the home and for the work
    postcode. *)
Theorem postcode_with_one_space_is_sent_compact (s : state) :
  (Str.count " " (homePostcode s) <= 1)%nat ->
  (Str.count " " (workPostcode s) <= 1)%nat ->
  let body := req_body (visualize_request s) in
  Str.contains " " (body_origin body) = false
  /\ Str.contains " " (body_destination body) = false
  /\ Str.forallb (fun c => negb (Str.is_lower c)) (body_origin body) = true
  /\ Str.forallb (fun c => negb (Str.is_lower c)) (body_destination body)
     = true.
Proof.
  intros Hh Hw body.
  destruct (request_normalisation s) as (U1 & U2 & _ & C1 & C2).
  fold body in U1, U2, C1, C2.
  rewrite !contains_count, C1, C2.
  repeat split; try assumption.
  - destruct (Str.count " " (homePostcode s)) as [| [| n]];
      [reflexivity | reflexivity | lia].
  - destruct (Str.count " " (workPostcode s)) as [| [| n]];
      [reflexivity | reflexivity | lia].
Qed.

Lemma postcode_with_one_space_is_sent_compact_witness :
  Str.contains " " (body_origin (req_body (visualize_request filled_in)))
  = false.
Proof.
  apply (postcode_with_one_space_is_sent_compact filled_in);
    cbn; lia.
Defined.

(** X7. Every option of the travel-method list passes the validation,
    and lower-casing keeps the options apart: two options are sent as
    the same mode only if they are the same option. *)
Theorem travel_options_stay_distinct (s : state) (o1 o2 : travel_option) :
  Str.truthy (option_value o1) = true
  /\ (body_mode (req_body (visualize_request
                             (set_state s (SetTravelMethod (option_value o1)))))
      = body_mode (req_body (visualize_request
                               (set_state s (SetTravelMethod (option_value o2)))))
      -> o1 = o2).
Proof.
  split; [now destruct o1 |].
  destruct o1, o2; cbn; intros H; try reflexivity; discriminate H.
Qed.

End Submitting.

Section ViewModes.

Local Open Scope string_scope.

(** X8. An address without a non-empty [trees] or without a non-empty
    [emissions] parameter is ignored as a whole: whatever else it
    carries, a [method] included, the component starts in its initial
    state. *)
Theorem incomplete_link_is_ignored (l : Url.location) :
  ~ (exists trees emissions,
        Url.get (Url.parse (Url.search l)) "trees" = Some trees
        /\ trees <> ""
        /\ Url.get (Url.parse (Url.search l)) "emissions" = Some emissions
        /\ emissions <> "") ->
  load l = {| st := initial_state; loc := l; timers := [] |}.
Proof.
  intros H. unfold load.
  destruct (mount_effect_cases l)
    as [[-> _] | (t & e & tail & Ht & Hnt & He & Hne & _)];
    [reflexivity |].
  exfalso. apply H. now exists t, e.
Qed.

Lemma incomplete_link_is_ignored_witness :
  travelMethod (st (load (page "?method=Bike&trees=92"))) = "".
Proof.
  rewrite (incomplete_link_is_ignored (page "?method=Bike&trees=92"));
    [reflexivity |].
  intros (t & e & _ & _ & H & _). discriminate H.
Defined.

(** X9. The shared view is entered at load only: once the component is
    out of it, by a reset or from the start, no sequence of events
    brings it back. *)
Theorem shared_view_is_never_reentered
  (l : Url.location) (before later : list event) :
  isSharedView (st (run l before)) = false ->
  isSharedView (st (run l (before ++ later))) = false.
Proof.
  intros H. unfold run. rewrite fold_left_app.
  apply steps_keep_out_of_shared_view; [apply run_timers | exact H].
Qed.

Lemma shared_view_is_never_reentered_witness :
  isSharedView
    (st (run (page "?trees=92&emissions=5.0&method=Bike")
           ([ClickReset]
            ++ [ChangeHome "SW1A 1AA"; ChangeWork "EC2A 1NT";
                ClickVisualize (FetchRejected NotAnError)])))
  = false.
Proof.
  apply (shared_view_is_never_reentered
           (page "?trees=92&emissions=5.0&method=Bike") [ClickReset]).
  reflexivity.
Defined.

(** X10. The shared view is read-only: as long as the component is in
    shared view, its state, the address and the timers are exactly what
    the load of the link made them, whatever events have arrived. *)
Theorem shared_view_is_read_only (l : Url.location) (evs : list event) :
  isSharedView (st (run l evs)) = true -> run l evs = load l.
Proof. exact (run_in_shared_view l evs). Qed.

Lemma shared_view_is_read_only_witness :
  run (page "?trees=92&emissions=5.0&method=Bike")
    [ChangeHome "SW1A 1AA"; ClickVisualize (FetchRejected NotAnError);
     ClickShare None; TimerFires]
  = load (page "?trees=92&emissions=5.0&method=Bike").
Proof.
  apply (shared_view_is_read_only
           (page "?trees=92&emissions=5.0&method=Bike")).
  reflexivity.
Defined.

End ViewModes.

Section TreesCount.

(** X11. The trees count that [calculateTreesNeeded] returns has no
    fractional part, and it is not negative when the estimate is not:
    the count shown and the number of icons drawn are never a fraction
    or a negative number for an estimate of zero or more. *)
Theorem trees_count_is_whole (v : value) (e n : number) :
  ToNumber v = inr e -> calculateTreesNeeded v = inr n ->
  whole n = true /\ (negative e = false -> negative n = false).
Proof.
  unfold calculateTreesNeeded. intros -> H. cbn [bind] in H.
  injection H as <-. split.
  - apply Math_ceil_whole.
  - intros He. apply Math_ceil_sign, div_sign; [| reflexivity].
    apply mul_sign; [| reflexivity]. apply mul_sign; [exact He | reflexivity].
Qed.

Lemma trees_count_is_whole_witness :
  whole (Math_ceil (div (mul (mul (of_Z2 5 (-1)) (of_Z 2)) (of_Z 230))
                      KG_CO2_PER_TREE_PER_YEAR)) = true.
Proof.
  apply (trees_count_is_whole (VNum (of_Z2 5 (-1))) (of_Z2 5 (-1)));
    reflexivity.
Defined.

End TreesCount.

Section Rendering.

Local Open Scope string_scope.

(** Without an estimate the render completes, whatever the page has
    added to the global object. *)
Lemma render_without_estimate (globals : list string) (s : state) :
  carbonEmissions s = VNull -> render globals s = inr (input_view s).
Proof.
  intros H. unfold render, input_view. rewrite H.
  destruct (isSharedView s); reflexivity.
Qed.

(** X12. On a form without an estimate the message of a rejected
    submission is on the page after the submission, with the form.  The
    message of a failed call is on the page exactly when it is not
    empty: a failure whose error carries an empty message shows
    nothing. *)
Theorem error_message_is_displayed
  (globals : list string) (s : state) (o : fetch_outcome) :
  carbonEmissions s = VNull -> isSharedView s = false ->
  let s' := after s (handleVisualize s o) in
  (filled s = false ->
   exists v, render globals s' = inr v
             /\ shows_form v = true /\ shows_error v = true)
  /\ (forall err, filled s = true -> fails_early o = true ->
        failure o = Some err ->
        exists v, render globals s' = inr v
                  /\ shows_form v = true
                  /\ shows_error v = Str.truthy (catch_message err)).
Proof.
  intros Hc Hs s'. split.
  - intros F. exists (input_view s'). subst s'.
    rewrite handleVisualize_unfilled by assumption.
    rewrite render_without_estimate by exact Hc.
    unfold input_view. cbn [after fold_left set_state isSharedView error].
    rewrite Hs. repeat split.
  - intros err F Early Hf. exists (input_view s').
    destruct (handleVisualize_failure s o err F Hf)
      as (H1 & _ & H3 & _ & H5 & _).
    fold s' in H1, H3, H5.
    rewrite render_without_estimate by (rewrite (H5 Early); exact Hc).
    unfold input_view. rewrite H1, H3, Hs. repeat split.
Qed.

Lemma error_message_is_displayed_witness :
  exists v,
    render [] (after initial_state
                 (handleVisualize initial_state (FetchRejected NotAnError)))
    = inr v
    /\ shows_form v = true /\ shows_error v = true.
Proof.
  apply (error_message_is_displayed [] initial_state
           (FetchRejected NotAnError)); reflexivity.
Defined.

End Rendering.

Section AfterReset.

Local Open Scope string_scope.

(** X13. Leaving the shared view keeps what the link brought: after the
    reset the form has the travel method of the link selected, so that
    two postcodes are enough for a submission, which is sent with that
    method in lower case; until a call succeeds the estimate of the link
    stays in the state.  The parameters of the link are ASCII texts and
    the path of the page does not begin with [//], so that the browser
    accepts the reset. *)
Theorem link_method_is_preselected_after_reset
  (l : Url.location) (trees emissions method home work : string) :
  Url.get (Url.parse (Url.search l)) "trees" = Some trees -> trees <> "" ->
  Url.get (Url.parse (Url.search l)) "emissions" = Some emissions ->
  emissions <> "" ->
  Url.get (Url.parse (Url.search l)) "method" = Some method -> method <> "" ->
  Str.ascii_text trees = true -> Str.ascii_text emissions = true ->
  Str.ascii_text method = true ->
  String.prefix "//" (Url.pathname l) = false ->
  home <> "" -> work <> "" ->
  let w := run l [ClickReset; ChangeHome home; ChangeWork work] in
  filled (st w) = true
  /\ enabled (st w) (ClickVisualize (FetchRejected NotAnError)) = true
  /\ body_mode (req_body (visualize_request (st w))) = Str.toLowerCase method
  /\ carbonEmissions (st w) = VNum (parseFloat emissions)
  /\ treesNeeded (st w) = parseInt10 trees.
Proof.
  intros Ht Hnt He Hne Hm Hnm _ _ _ Hp Hh Hw w.
  apply truthy_true in Hnt, Hne, Hnm, Hh, Hw.
  set (s0 := after initial_state
               [ SetTreesNeeded (parseInt10 trees);
                 SetCarbonEmissions (VNum (parseFloat emissions));
                 SetIsSharedView true; SetTravelMethod method ]).
  set (l' := {| Url.origin := Url.origin l; Url.pathname := Url.pathname l;
                Url.search := ""; Url.hash := "" |}).
  assert (E0 : load l = {| st := s0; loc := l; timers := [] |}).
  { unfold load, mount_effect. rewrite Ht, He, Hm, Hnt, Hne, Hnm. reflexivity. }
  assert (E1 : step {| st := s0; loc := l; timers := [] |} ClickReset
               = {| st := after s0 [SetIsSharedView false];
                    loc := l'; timers := [] |}).
  { unfold step. rewrite enabled_spec, mounted_spec.
    cbn [handle]. rewrite perform_reset. cbn [loc].
    unfold Url.pushState. rewrite Hp. reflexivity. }
  assert (E : w = {| st := after s0 [SetIsSharedView false;
                                     SetHomePostcode home;
                                     SetWorkPostcode work];
                     loc := l'; timers := [] |}).
  { subst w. unfold run. cbn [fold_left]. rewrite E0, E1. reflexivity. }
  rewrite E. clear E E0 E1 w. split; [| split; [| repeat split]].
  - change (Str.truthy home && Str.truthy work && Str.truthy method = true).
    now rewrite Hh, Hw, Hnm.
  - reflexivity.
Qed.

Lemma link_method_is_preselected_after_reset_witness :
  body_mode
    (req_body
       (visualize_request
          (st (run (page "?trees=92&emissions=5.0&method=Bike")
                 [ClickReset; ChangeHome "SW1A 1AA"; ChangeWork "EC2A 1NT"]))))
  = "bike".
Proof.
  apply (link_method_is_preselected_after_reset
           (page "?trees=92&emissions=5.0&method=Bike")
           "92" "5.0" "Bike" "SW1A 1AA" "EC2A 1NT");
    try reflexivity; discriminate.
Defined.

End AfterReset.

Section EdgeCases.

Local Open Scope string_scope.

(** X14. The share button never copies an empty text.  Wherever the
    button is on the page the link can be built: it is the address
    without its query, followed by [?] and a query that is not empty,
    not the empty string that [generateShareableLink] returns without
    an estimate; and this link is what the handler writes to the
    clipboard, before anything else. *)
Theorem share_button_never_copies_nothing
  (w : world) (clip : option thrown) :
  enabled (st w) (ClickShare clip) = true ->
  exists query,
    query <> ""
    /\ generateShareableLink (st w) (loc w)
       = inr (Url.href_without_search (loc w) ++ "?" ++ query)
    /\ exists rest,
         handleShare (st w) (loc w) clip
         = ClipboardWrite (Url.href_without_search (loc w) ++ "?" ++ query)
           :: rest.
Proof.
  intros He. destruct (share_enabled (st w) clip He) as ([x Hx] & _ & _).
  assert (H : generateShareableLink (st w) (loc w)
              = inr (Url.href_without_search (loc w) ++ "?"
                     ++ Url.toString
                          ([("trees", Number_toString (treesNeeded (st w)));
                            ("emissions", Number_toString x)]
                           ++ if Str.truthy (travelMethod (st w))
                              then [("method", travelMethod (st w))]
                              else [])%list)).
  { unfold generateShareableLink, share_params. rewrite Hx.
    cbn [value_toString bind].
    destruct (Str.truthy (travelMethod (st w))); reflexivity. }
  eexists. split; [| split; [exact H |]].
  - destruct (Str.truthy (travelMethod (st w))); discriminate.
  - unfold handleShare. rewrite H. eexists. reflexivity.
Qed.

Lemma share_button_never_copies_nothing_witness :
  let w := run (page "")
             [ChangeHome "SW1A 1AA"; ChangeWork "EC2A 1NT"; ChangeMethod Bike;
              ClickVisualize
                (FetchResponse true (JsonData (PayloadWith (VNum (of_Z 5)))))] in
  exists query,
    generateShareableLink (st w) (loc w)
    = inr (Url.href_without_search (loc w) ++ "?" ++ query).
Proof.
  intros w.
  destruct (share_button_never_copies_nothing w None eq_refl)
    as (query & _ & H & _).
  exists query. exact H.
Defined.

(** X15. The estimate is stored before the trees count is computed.
    When the value of the payload cannot be converted to a number, the
    call is reported as failed, with the message of the conversion
    error, and the trees count stays as it was, but the value is already
    in [carbonEmissions]: the next render fails on it. *)
Theorem unconvertible_estimate_is_stored
  (globals : list string) (s : state) (v : value) (err : thrown) :
  filled s = true -> isSharedView s = false ->
  calculateTreesNeeded v = inl err ->
  let s' := after s (handleVisualize s
                       (FetchResponse true (JsonData (PayloadWith v)))) in
  error s' = Some (catch_message err)
  /\ carbonEmissions s' = v
  /\ treesNeeded s' = treesNeeded s
  /\ render globals s'
     = inl (ErrorObject "TypeError"
              "carbonEmissions.toFixed is not a function").
Proof.
  intros F Hs E s'.
  assert (Hf : failure (FetchResponse true (JsonData (PayloadWith v)))
               = Some err).
  { unfold failure. cbn [visualize_try read_emissions]. now rewrite E. }
  destruct (handleVisualize_failure s _ err F Hf)
    as (H1 & _ & H3 & H4 & _ & H6).
  destruct (H6 v eq_refl) as [Hc _]. fold s' in H1, H3, H4, Hc.
  repeat split; try assumption.
  unfold render. rewrite Hc, H3, Hs.
  destruct v as [| | x | n t]; try discriminate E. reflexivity.
Qed.

Lemma unconvertible_estimate_is_stored_witness :
  carbonEmissions
    (after filled_in
       (handleVisualize filled_in
          (FetchResponse true
             (JsonData
                (PayloadWith
                   (VOther (inl (ErrorObject "TypeError"
                                   "Cannot convert object to primitive value"))
                      (inl (ErrorObject "TypeError"
                              "carbonEmissions.toString is not a function"))))))))
  = VOther (inl (ErrorObject "TypeError"
                   "Cannot convert object to primitive value"))
      (inl (ErrorObject "TypeError"
              "carbonEmissions.toString is not a function")).
Proof.
  apply (unconvertible_estimate_is_stored [] filled_in
           (VOther (inl (ErrorObject "TypeError"
                           "Cannot convert object to primitive value"))
              (inl (ErrorObject "TypeError"
                      "carbonEmissions.toString is not a function")))
           (ErrorObject "TypeError" "Cannot convert object to primitive value"));
    reflexivity.
Defined.

End EdgeCases.
